(** * The MCTS policy managers of [mcts/policymanagers/policymanager.py]

    A shallow embedding of [NNPolicyManager] and of the Python behaviour its
    methods rely on.  A manager is a Python object: its instance dictionary
    ([self.__dict__]) is a finite map from attribute names to values, every
    [self.x] is a lookup that raises [AttributeError] when [x] is unbound, and
    every method is a computation that threads the dictionary and the
    observable effects (log records, calls made to the model collaborator)
    and either returns or raises.  A raise keeps the mutations made before
    it, as in Python. *)

From Stdlib Require Import ZArith QArith Lia.
From stdpp Require Import base gmap strings list.

Open Scope Z_scope.

(** ** Exceptions and outcomes *)

(** The exceptions that the modelled code can raise.  [CollaboratorError]
    stands for any [Exception] raised by the model collaborator ([fit],
    [save]); [SystemExit] is what [sys.exit] raises, and it derives from
    [BaseException], not from [Exception]. *)
Inductive exn : Type :=
| AttributeError (attr : string)
| NameError (name : string)
| TypeError (msg : string)
| ValueError (msg : string)
| IndexError
| ZeroDivisionError
| CollaboratorError (msg : string)
| SystemExit (code : Z).

(** [isinstance(e, Exception)]: what [except Exception] catches. *)
Definition is_Exception (e : exn) : bool :=
  match e with
  | SystemExit _ => false
  | _ => true
  end.

(** How a call ends.  [Waiting]: the call is blocked in [Event.wait()] on an
    event that is not set.  [Running]: the training loop is still iterating
    when the modelled schedule of collaborator answers ends. *)
Inductive outcome (A : Type) : Type :=
| Return (a : A)
| Raise (e : exn)
| Waiting
| Running.
Arguments Return {A} a.
Arguments Raise {A} e.
Arguments Waiting {A}.
Arguments Running {A}.

(** ** Collaborators' data *)

(** A search node: [node.state] as numpy holds it (its entries in row-major
    order and its shape), and [node[i].value], the value of the edge of
    action [i]. *)
Record node : Type := Node {
  state : list Q;
  state_dims : list nat;
  edge_value : nat -> Q
}.

(** [node.state.ndim] *)
Definition state_ndim (nd : node) : nat := length (state_dims nd).

(** The environment handed to the constructor and to [selection]. *)
Record environment : Type := Environment {
  state_shape : list nat;
  action_space : nat;
  actions : list Z
}.

(** ** Values *)

(** Floats that are only stored, compared or combined by ring operations are
    rationals; the scores that come back from [puct] may be infinite or NaN. *)
Inductive npfloat : Type :=
| Fin (q : Q)
| PInf
| NInf
| NaN.

(** The values that an attribute can hold.  An array of two or more
    dimensions is held as the shape of a row (an entry along its first
    axis) and its rows, each in row-major order. *)
Inductive pyval : Type :=
| VNone
| VBool (b : bool)
| VInt (z : Z)
| VFloat (q : Q)
| VLogger (name : string)
| VModel (ref : nat)
| VSimulator (env : environment)
| VShape (dims : list nat)
| VArray2 (row_shape : list nat) (rows : list (list Q))
| VArray1 (xs : list Q)
| VThread (target : string)
| VEvent (flag : bool)
| VSortedDict (items : list (Z * Q)).

Inductive level : Type := INFO | ERROR.

Inductive message : Type :=
| Text (s : string)
| History (h : list Q)
| Crashed (e : exn).

(** What the manager does to the outside: records sent to a logger, requests
    to numpy's generator, calls on a model. *)
Inductive event : Type :=
| EvLog (logger : string) (lvl : level) (msg : message)
| EvRandint (high size : Z)
| EvFit (model : nat) (X y1 : list (list Q)) (y2 : list Q) (initial_epoch : Z)
| EvSave (model : nat) (checkpoint : Z)
| EvClone (model clone : nat).

Record world : Type := World {
  attrs : gmap string pyval;
  trace : list event;
  next_ref : nat
}.

(** ** The monad of method bodies *)

Definition M (A : Type) : Type := world -> outcome A * world.

Definition ret {A} (a : A) : M A := fun w => (Return a, w).

Definition bind {A B} (m : M A) (k : A -> M B) : M B :=
  fun w =>
    match m w with
    | (Return a, w') => k a w'
    | (Raise e, w') => (Raise e, w')
    | (Waiting, w') => (Waiting, w')
    | (Running, w') => (Running, w')
    end.

Definition raise {A} (e : exn) : M A := fun w => (Raise e, w).
Definition block {A} : M A := fun w => (Waiting, w).
Definition unfinished {A} : M A := fun w => (Running, w).

Notation "x <- m ;; k" := (bind m (fun x => k))
  (at level 100, m at next level, right associativity).
Notation "m ;;; k" := (bind m (fun _ => k))
  (at level 100, right associativity).

(** [try: body  except Exception as e: handler(e)] *)
Definition try_except {A} (body : M A) (handler : exn -> M A) : M A :=
  fun w =>
    match body w with
    | (Raise e, w') => if is_Exception e then handler e w' else (Raise e, w')
    | r => r
    end.

(** [self.name].  The classes define methods only, and no method has the
    name of an attribute read below, so the lookup is that of the instance
    dictionary. *)
Definition getattr (name : string) : M pyval :=
  fun w =>
    match attrs w !! name with
    | Some v => (Return v, w)
    | None => (Raise (AttributeError name), w)
    end.

(** [self.name = v] *)
Definition setattr (name : string) (v : pyval) : M unit :=
  fun w => (Return tt, World (<[name := v]> (attrs w)) (trace w) (next_ref w)).

Definition emit (e : event) : M unit :=
  fun w => (Return tt, World (attrs w) (trace w ++ [e]) (next_ref w)).

Definition as_int (v : pyval) : M Z :=
  match v with
  | VInt z => ret z
  | VBool b => ret (if b then 1 else 0)
  | _ => raise (TypeError "unsupported operand type(s)")
  end.

Definition as_float (v : pyval) : M Q :=
  match v with
  | VFloat q => ret q
  | VInt z => ret (inject_Z z)
  | VBool b => ret (if b then 1%Q else 0%Q)
  | _ => raise (TypeError "unsupported operand type(s)")
  end.

Definition getattr_int (name : string) : M Z :=
  v <- getattr name;; as_int v.

Definition getattr_float (name : string) : M Q :=
  v <- getattr name;; as_float v.

(** [self.<logger>.info(msg)] and [self.<logger>.error(msg)] *)
Definition log (logger : string) (lvl : level) (msg : message) : M unit :=
  v <- getattr logger;;
  match v with
  | VLogger name => emit (EvLog name lvl msg)
  | _ => raise (AttributeError (match lvl with INFO => "info" | ERROR => "error" end))
  end.

(** [a % b] on Python ints: floored, the sign of the divisor, as [Z.modulo];
    a zero divisor raises. *)
Definition py_mod (a b : Z) : M Z :=
  if b =? 0 then raise ZeroDivisionError else ret (a mod b).

(** [a // b] on Python ints. *)
Definition py_floordiv (a b : Z) : M Z :=
  if b =? 0 then raise ZeroDivisionError else ret (a / b).

(** ** numpy arrays *)

(** An integer index into an axis of length [len]: negative indices count
    from the end, anything else out of range is an [IndexError]. *)
Definition np_index (len : nat) (i : Z) : option nat :=
  if (0 <=? i) && (i <? Z.of_nat len) then Some (Z.to_nat i)
  else if (- Z.of_nat len <=? i) && (i <? 0) then Some (Z.to_nat (Z.of_nat len + i))
  else None.

(** [a[i]] *)
Definition np_getitem {A} (a : list A) (i : Z) : M A :=
  match np_index (length a) i with
  | Some k => match a !! k with
              | Some x => ret x
              | None => raise IndexError
              end
  | None => raise IndexError
  end.

(** [a[i] = x], in place, for a one-dimensional [a] and a number [x] *)
Definition np_setitem {A} (a : list A) (i : Z) (x : A) : M (list A) :=
  match np_index (length a) i with
  | Some k => ret (<[k := x]> a)
  | None => raise IndexError
  end.

Definition product (dims : list nat) : nat := fold_right Nat.mul 1%nat dims.

(** [n] consecutive pieces of [size] entries. *)
Fixpoint chunks {A} (size n : nat) (data : list A) : list (list A) :=
  match n with
  | O => []
  | S n' => take size data :: chunks size n' (drop size data)
  end.

(** Broadcasting a value of shape [src] (its entries in row-major order) to
    the shape [dst] of the same number of dimensions: along each axis the
    lengths agree, or the value has length 1 there and is repeated. *)
Fixpoint broadcast {A} (dst src : list nat) (value : list A) : option (list A) :=
  match dst, src with
  | [], [] => Some value
  | d :: dst', s :: src' =>
      if (s =? d)%nat then
        (fun rows => List.concat rows)
          <$> mapM (broadcast dst' src') (chunks (product src') s value)
      else if (s =? 1)%nat then
        (fun row => List.concat (replicate d row)) <$> broadcast dst' src' value
      else None
  | _, _ => None
  end.

(** The leading axes of length 1 that a value has in excess of the slot it
    is assigned to are dropped. *)
Fixpoint squeeze_leading (excess : nat) (shape : list nat) : list nat :=
  match excess, shape with
  | S excess', 1%nat :: rest => squeeze_leading excess' rest
  | _, _ => shape
  end.

(** The row that an assignment stores in a slot of shape [dst] for a value
    of shape [src]: the value broadcast to the slot, its shape padded with
    leading axes of length 1; [None] when numpy cannot broadcast it (the
    value has more axes than the slot, or an axis that does not fit). *)
Definition broadcast_row {A} (dst src : list nat) (value : list A) : option (list A) :=
  let src := squeeze_leading (length src - length dst) src in
  if (length dst <? length src)%nat then None
  else broadcast dst (replicate (length dst - length src) 1%nat ++ src) value.

(** [a[i] = value], in place, for an array [a] whose rows have the shape
    [shape] and a value of shape [dims]: the index is resolved first, then
    the value is broadcast to the row. *)
Definition np_setrow {A} (shape : list nat) (a : list (list A)) (i : Z)
    (dims : list nat) (value : list A) : M (list (list A)) :=
  match np_index (length a) i with
  | Some k =>
      match broadcast_row shape dims value with
      | Some row => ret (<[k := row]> a)
      | None => raise (ValueError "could not broadcast input array")
      end
  | None => raise IndexError
  end.

(** [a[idx]] for an integer array [idx]: the rows at those indices. *)
Fixpoint np_take {A} (a : list A) (idx : list Z) : M (list A) :=
  match idx with
  | [] => ret []
  | i :: rest =>
      x <- np_getitem a i;;
      xs <- np_take a rest;;
      ret (x :: xs)
  end.

(** [np.zeros(n)]; a negative dimension is refused. *)
Definition np_zeros {A} (zero : A) (n : Z) : M (list A) :=
  if n <? 0 then raise (ValueError "negative dimensions are not allowed")
  else ret (replicate (Z.to_nat n) zero).

(** An array of two or more dimensions: the rows, each in row-major
    order, and (for [as_ndarray]) the shape of a row with them. *)
Definition as_array2 (v : pyval) : M (list (list Q)) :=
  match v with
  | VArray2 _ rows => ret rows
  | _ => raise (TypeError "object is not subscriptable")
  end.

Definition as_ndarray (v : pyval) : M (list nat * list (list Q)) :=
  match v with
  | VArray2 shape rows => ret (shape, rows)
  | _ => raise (TypeError "object does not support item assignment")
  end.

Definition as_array1 (v : pyval) : M (list Q) :=
  match v with
  | VArray1 xs => ret xs
  | _ => raise (TypeError "object is not subscriptable")
  end.

(** The constructor's keyword arguments. *)
Record config : Type := Config {
  cfg_checkpoint : Z;
  cfg_validation_games : Z;
  cfg_update_threshold : Q;
  cfg_memory_size : Z;
  cfg_alpha : Q;
  cfg_epsilon : Q;
  cfg_C : Q;
  cfg_temperature_schedule : list (Z * Q);
  cfg_batch_size : Z;
  cfg_training : bool
}.

(** The defaults of [NNPolicyManager.__init__]. *)
Definition default_config : config :=
  {| cfg_checkpoint := 1000;
     cfg_validation_games := 400;
     cfg_update_threshold := 55 # 100;
     cfg_memory_size := 10;
     cfg_alpha := 3 # 100;
     cfg_epsilon := 25 # 100;
     cfg_C := 141 # 100;
     cfg_temperature_schedule := [(0, 1 # 100)];
     cfg_batch_size := 4;
     cfg_training := false |}.

(** ** [NNPolicyManager] *)

(** [model.clone()]: a new model object. *)
Definition clone (m : nat) : M nat :=
  fun w =>
    (Return (next_ref w),
     World (attrs w) (trace w ++ [EvClone m (next_ref w)]) (S (next_ref w))).

(** [SortedDict(d)]: the items of [d] in increasing key order; a key given
    twice keeps its last value, as in a dict. *)
Fixpoint sorted_insert (k : Z) (v : Q) (items : list (Z * Q)) : list (Z * Q) :=
  match items with
  | [] => [(k, v)]
  | (k', v') :: rest =>
      if k <? k' then (k, v) :: items
      else if k =? k' then (k, v) :: rest
      else (k', v') :: sorted_insert k v rest
  end.

Definition SortedDict (d : list (Z * Q)) : list (Z * Q) :=
  fold_left (fun acc kv => sorted_insert (fst kv) (snd kv) acc) d [].

(** [NNPolicyManager.__init__], lines 86-125, with its keyword arguments in
    [cfg].  [model] is the handle of the model passed in and [input_dims]
    its [model.input.shape.ndims].  The first assignment is that of
    [BasePolicyManager.__init__]; [_initialize_models] only calls into the
    models and binds nothing. *)
Definition __init__ (model : nat) (input_dims : Z) (env : environment)
    (cfg : config) : M unit :=
  setattr "_logger" (VLogger "NNPolicyManager");;;
  setattr "_nn_logger" (VLogger "NNPolicyManager|Network");;;
  setattr "_next_model" (VModel model);;;
  live <- clone model;;
  setattr "model" (VModel live);;;
  setattr "_input_dims" (VInt input_dims);;;
  setattr "alpha" (VFloat (cfg_alpha cfg));;;
  setattr "C" (VFloat (cfg_C cfg));;;
  setattr "_training" (VBool (cfg_training cfg));;;
  setattr "_state_shape" (VShape (state_shape env));;;
  setattr "_n_policies" (VInt (Z.of_nat (action_space env)));;;
  setattr "simulator" (VSimulator env);;;
  setattr "checkpoint_interval" (VInt (cfg_checkpoint cfg));;;
  setattr "checkpoint" (VInt 1);;;
  setattr "_training_step" (VInt 0);;;
  setattr "epsilon" (VFloat (cfg_epsilon cfg));;;
  setattr "validation_games" (VInt (cfg_validation_games cfg));;;
  setattr "update_threshold" (VFloat (cfg_update_threshold cfg));;;
  states <- np_zeros (replicate (product (state_shape env)) 0%Q) (cfg_memory_size cfg);;
  setattr "replay_states" (VArray2 (state_shape env) states);;;
  policies <- np_zeros (replicate (action_space env) 0%Q) (cfg_memory_size cfg);;
  setattr "replay_policies" (VArray2 [action_space env] policies);;;
  rewards <- np_zeros 0%Q (cfg_memory_size cfg);;
  setattr "replay_rewards" (VArray1 rewards);;;
  setattr "replay_maxlen" (VInt (cfg_memory_size cfg));;;
  setattr "_replay_index" (VInt 0);;;
  half <- py_floordiv (cfg_memory_size cfg) 2;;
  setattr "min_train_capacity" (VInt half);;;
  setattr "_train_thread" (VThread "_train_process");;;
  setattr "batch_size" (VInt (cfg_batch_size cfg));;;
  setattr "temperature_schedule" (VSortedDict (SortedDict (cfg_temperature_schedule cfg))).

(** Before the constructor runs: an empty instance dictionary; handle 0 is
    the model passed to the constructor. *)
Definition blank : world := World ∅ [] 1.

(** The manager as the constructor leaves it, for a model with a
    four-dimensional input.  The outcome of the constructor is dropped: when
    it raises (a negative [memory_size]) this is the half-built object. *)
Definition fresh (env : environment) (cfg : config) : world :=
  snd (__init__ 0%nat 4 env cfg blank).

(** [event.is_set()] *)
Definition is_set (v : pyval) : M bool :=
  match v with
  | VEvent flag => ret flag
  | _ => raise (AttributeError "is_set")
  end.

(** [self.<name>.set()] *)
Definition event_set (name : string) : M unit :=
  v <- getattr name;;
  match v with
  | VEvent _ => setattr name (VEvent true)
  | _ => raise (AttributeError "set")
  end.

(** [NNPolicyManager.update(node, reward)], lines 170-184.  The arrays are
    mutated in place: the dictionary entry is rewritten with the new
    contents.  The state is assigned as numpy assigns it: broadcast to the
    shape of a slot, or refused with [ValueError] before anything is
    written; the edge values are a list of [_n_policies] numbers. *)
Definition update (nd : node) (reward : Q) : M unit :=
  log "_logger" INFO (Text "Adding state to replay table");;;
  cursor <- getattr_int "_replay_index";;
  modulus <- getattr_int "min_train_capacity";;
  i <- py_mod cursor modulus;;
  n <- getattr_int "_n_policies";;
  let edge_values := map (edge_value nd) (seq 0 (Z.to_nat n)) in
  states <- (v <- getattr "replay_states";; as_ndarray v);;
  states' <- np_setrow (fst states) (snd states) i (state_dims nd) (state nd);;
  setattr "replay_states" (VArray2 (fst states) states');;;
  policies <- (v <- getattr "replay_policies";; as_ndarray v);;
  policies' <- np_setrow (fst policies) (snd policies) i [length edge_values]
                 edge_values;;
  setattr "replay_policies" (VArray2 (fst policies) policies');;;
  rewards <- (v <- getattr "replay_rewards";; as_array1 v);;
  rewards' <- np_setitem rewards i reward;;
  setattr "replay_rewards" (VArray1 rewards');;;
  cursor <- getattr_int "_replay_index";;
  setattr "_replay_index" (VInt (cursor + 1));;;
  ready <- (v <- getattr "replay_ready";; is_set v);;
  if negb ready then
    cursor <- getattr_int "_replay_index";;
    threshold <- getattr_int "min_train_capacity";;
    if cursor >? threshold then
      log "_logger" INFO (Text "Replay Table Ready");;;
      event_set "replay_ready"
    else ret tt
  else ret tt.

(** A sequence of [update] calls made by a driver that carries on after a
    call raises (the manager keeps whatever the failed call had written). *)
Fixpoint updates (samples : list (node * Q)) (w : world) : world :=
  match samples with
  | [] => w
  | (nd, reward) :: rest => updates rest (snd (update nd reward w))
  end.

(** ** Selection and action choice *)

(** [a < b] on floats; every comparison with NaN is false. *)
Definition npfloat_lt (a b : npfloat) : bool :=
  match a, b with
  | NaN, _ | _, NaN => false
  | _, NInf => false
  | NInf, _ => true
  | PInf, _ => false
  | Fin _, PInf => true
  | Fin x, Fin y => negb (Qle_bool y x)
  end.

(** Whether [x] replaces the running maximum [best] in [argmax]: the first
    NaN wins and stays, otherwise a strictly greater value does. *)
Definition replaces (x best : npfloat) : bool :=
  match best, x with
  | NaN, _ => false
  | _, NaN => true
  | _, _ => npfloat_lt best x
  end.

Fixpoint argmax_from (best_i : nat) (best : npfloat) (i : nat)
    (l : list npfloat) : nat :=
  match l with
  | [] => best_i
  | x :: rest =>
      if replaces x best then argmax_from i x (S i) rest
      else argmax_from best_i best (S i) rest
  end.

(** [a.argmax()]: the index of the first maximum; an empty array raises. *)
Definition np_argmax (a : list npfloat) : M nat :=
  match a with
  | [] => raise (ValueError "attempt to get argmax of an empty sequence")
  | x :: rest => ret (argmax_from 0 x 1 rest)
  end.

(** [np.random(...)]: [np.random] is the module [numpy.random], and calling a
    module raises. *)
Definition np_random (arg : list pyval) : M (list Q) :=
  raise (TypeError "'module' object is not callable").

Definition as_model (v : pyval) : M nat :=
  match v with
  | VModel ref => ret ref
  | _ => raise (AttributeError "predict")
  end.

Definition as_items (v : pyval) : M (list (Z * Q)) :=
  match v with
  | VSortedDict items => ret items
  | _ => raise (AttributeError "items")
  end.

(** [l[-1]] on a Python list. *)
Definition py_last {A} (l : list A) : M A :=
  match last l with
  | Some x => ret x
  | None => raise IndexError
  end.

(** Python truthiness of the [move_number] argument: [None] and [0] are
    false. *)
Definition truthy_move (move_number : option Z) : bool :=
  match move_number with
  | Some z => negb (z =? 0)
  | None => false
  end.

(** [(1 - eps) * prior + eps * noise], elementwise. *)
Definition blend (eps : Q) (prior noise : list Q) : list Q :=
  zip_with Qplus (map (Qmult (1 - eps)) prior) (map (Qmult eps) noise).

Section Externals.

  (** The functions of [..utils] and the model's [predict], which are not
      part of this file: [predict m X] is [m.predict(X)[0][0]],
      [puct node probabilities C] the full score vector, and
      [zero_temperature_choice node temp] the final move, with [temp = None]
      when the argument is left out. *)
  Variable predict : nat -> list Q -> list Q.
  Variable puct : node -> list Q -> Q -> list npfloat.
  Variable zero_temperature_choice : node -> option Q -> M Z.

(** [NNPolicyManager.action_choice(node, move_number=None)], lines 134-139. *)
Definition action_choice (nd : node) (move_number : option Z) : M Z :=
  if truthy_move move_number then
    schedule <- getattr "tempurature_schedule";;
    items <- as_items schedule;;
    temp <- py_last (map snd (List.filter (fun ji => fst ji <? 5) items));;
    zero_temperature_choice nd (Some temp)
  else
    zero_temperature_choice nd None.

(** [NNPolicyManager.nn_policy_from_node(node)], lines 159-167.  The
    reshaping leaves the flattened state as it is. *)
Definition nn_policy_from_node (nd : node) : M (list Q) :=
  let X_ndim := S (state_ndim nd) in
  (if (X_ndim =? 3)%nat then
     dims <- getattr "_input_dims";; ret tt
   else ret tt);;;
  live <- (v <- getattr "model";; as_model v);;
  ret (predict live (state nd)).

(** [NNPolicyManager.selection(node, env, root=False)], lines 145-156. *)
Definition selection (nd : node) (env : environment) (root : bool) : M Z :=
  let actions := actions env in
  probabilities <- nn_policy_from_node nd;;
  probabilities <-
    (if root then
       eps <- getattr_float "epsilon";;
       getattr "epsilon";;;
       alpha <- getattr "alpha";;
       noise <- np_random (replicate (length probabilities) alpha);;
       ret (blend eps probabilities noise)
     else ret probabilities);;
  c <- getattr_float "C";;
  let pi := puct nd probabilities c in
  scores <- np_take pi actions;;
  best <- np_argmax scores;;
  np_getitem actions (Z.of_nat best).

(** [NNPolicyManager.rollout(node, env)], lines 141-143. *)
Definition rollout (nd : node) (env : environment) : M Z :=
  selection nd env false.

End Externals.

(** ** The training thread *)

(** What a collaborator does when called. *)
Inductive answer (A : Type) : Type :=
| Answers (a : A)
| Throws (e : exn).
Arguments Answers {A} a.
Arguments Throws {A} e.

(** What the outside supplies to one turn of the training loop: whether
    another thread has cleared the optimize flag before the loop tests it,
    the raw output of numpy's generator, and what the model does on [fit]
    and on [save]. *)
Record tick : Type := Tick {
  stop_requested : bool;
  entropy : nat -> Z;
  fit_answer : answer (list Q);
  save_answer : answer unit
}.

(** The indices that [randint high size] makes of the generator's output. *)
Definition drawn (high size : Z) (raw : nat -> Z) : list Z :=
  map (fun k => raw k mod high) (seq 0 (Z.to_nat size)).

(** [np.random.randint(high, size=size)]: [size] integers of [[0, high)],
    each taken from the generator on its own (so with replacement).  A
    request for no sample at all is answered with an empty array before the
    bound is looked at; otherwise a [high] that is not positive is refused,
    and then a negative [size]. *)
Definition randint (high size : Z) (raw : nat -> Z) : M (list Z) :=
  emit (EvRandint high size);;;
  if size =? 0 then ret []
  else if high <=? 0 then raise (ValueError "low >= high")
  else if size <? 0 then raise (ValueError "negative dimensions are not allowed")
  else ret (drawn high size raw).

Definition call {A} (a : answer A) : M A :=
  match a with
  | Answers x => ret x
  | Throws e => raise e
  end.

(** [model.fit(X, [y1, y2], initial_epoch=step)] *)
Definition fit (model : nat) (X y1 : list (list Q)) (y2 : list Q) (step : Z)
    (a : answer (list Q)) : M (list Q) :=
  emit (EvFit model X y1 y2 step);;; call a.

(** [model.save(f'checkpoint {checkpoint}')] *)
Definition save (model : nat) (checkpoint : Z) (a : answer unit) : M unit :=
  emit (EvSave model checkpoint);;; call a.

(** Another thread's [self._optimize_event.clear()]. *)
Definition cleared_elsewhere (stop : bool) : M unit :=
  fun w =>
    match stop, attrs w !! "_optimize_event" with
    | true, Some (VEvent _) =>
        (Return tt, World (<["_optimize_event" := VEvent false]> (attrs w))
                          (trace w) (next_ref w))
    | _, _ => (Return tt, w)
    end.

(** The body of the [while] loop, lines 197-212. *)
Definition train_step (batch_size : pyval) (t : tick) : M unit :=
  cursor <- getattr_int "_replay_index";;
  maxlen <- getattr_int "replay_maxlen";;
  size <- as_int batch_size;;
  idx <- randint (Z.min cursor maxlen) size (entropy t);;
  X <- (v <- getattr "replay_states";; a <- as_array2 v;; np_take a idx);;
  y1 <- (v <- getattr "replay_policies";; a <- as_array2 v;; np_take a idx);;
  y2 <- (v <- getattr "replay_rewards";; a <- as_array1 v;; np_take a idx);;
  candidate <- (v <- getattr "_next_model";; as_model v);;
  step <- getattr_int "_training_step";;
  history <- fit candidate X y1 y2 step (fit_answer t);;
  log "_nn_logger" INFO (History history);;;
  step <- getattr_int "_training_step";;
  setattr "_training_step" (VInt (step + 1));;;
  step <- getattr_int "_training_step";;
  checkpoint <- getattr_int "checkpoint";;
  if step =? checkpoint then
    checkpoint <- getattr_int "checkpoint";;
    interval <- getattr_int "checkpoint_interval";;
    setattr "checkpoint" (VInt (checkpoint + interval));;;
    candidate <- (v <- getattr "_next_model";; as_model v);;
    checkpoint <- getattr_int "checkpoint";;
    save candidate checkpoint (save_answer t)
  else ret tt.

(** [while self._optimize_event.is_set(): ...], one [tick] per test of the
    flag. *)
Fixpoint train_loop (batch_size : pyval) (schedule : list tick) : M unit :=
  match schedule with
  | [] => unfinished
  | t :: rest =>
      cleared_elsewhere (stop_requested t);;;
      optimize <- (v <- getattr "_optimize_event";; is_set v);;
      if optimize then
        train_step batch_size t;;;
        train_loop batch_size rest
      else ret tt
  end.

(** [self.<name>.wait()] *)
Definition event_wait (name : string) : M unit :=
  v <- getattr name;;
  match v with
  | VEvent true => ret tt
  | VEvent false => block
  | _ => raise (AttributeError "wait")
  end.

(** [sys.exit(code)] *)
Definition sys_exit {A} (code : Z) : M A := raise (SystemExit code).

(** [NNPolicyManager._train_process()], lines 187-216. *)
Definition _train_process (schedule : list tick) : M unit :=
  log "_nn_logger" INFO (Text "Starting Training Thread");;;
  min_capacity <- (half <- getattr_float "min_train_capacity";; ret (half / 2)%Q);;
  batch_size <- getattr "batch_size";;
  try_except
    (log "_nn_logger" INFO (Text "Waiting for more data");;;
     event_wait "replay_ready";;;
     train_loop batch_size schedule)
    (fun e =>
       log "_nn_logger" ERROR (Crashed e);;;
       sys_exit 0).


(** ** Evaluation and promotion *)

(** The names bound at module level by the imports and class statements of
    [policymanager.py]. *)
Definition module_globals : list string :=
  [ "ucb1"; "puct"; "zero_temperature_choice"; "Simulator"; "ABC";
    "abstractmethod"; "atexit"; "deque"; "logwood"; "np"; "choice";
    "dirichlet"; "SortedDict"; "sys"; "threading"; "BasePolicyManager";
    "DefaultPolicyManager"; "NNPolicyManager"; "ZeroPolicyManager" ].

(** A bare name in a method body that is not a local: a global (none of the
    names looked up below is a builtin). *)
Definition global (name : string) : M unit :=
  if bool_decide (name ∈ module_globals) then ret tt else raise (NameError name).

(** The parameters of [NNPolicyManager.__init__], and those without a
    default. *)
Definition init_parameters : list string :=
  [ "model"; "environment"; "checkpoint"; "validation_games";
    "update_threshold"; "memory_size"; "alpha"; "epsilon"; "C";
    "temperature_schedule"; "batch_size"; "training" ].
Definition init_required : list string := [ "model"; "environment" ].

(** A call of [NNPolicyManager] with keyword arguments: it is refused when a keyword is not
    a parameter or a required parameter is missing. *)
Definition construct (keywords : list string) : M unit :=
  if negb (forallb (fun k => bool_decide (k ∈ init_parameters)) keywords) then
    raise (TypeError "__init__() got an unexpected keyword argument")
  else if negb (forallb (fun k => bool_decide (k ∈ keywords)) init_required) then
    raise (TypeError "__init__() missing required positional argument")
  else ret tt.

(** [not v]: of the values an attribute can hold here, [None], [False], zero
    and empty containers are false. *)
Definition falsy (v : pyval) : bool :=
  match v with
  | VNone => true
  | VBool b => negb b
  | VInt z => z =? 0
  | VFloat q => Qeq_bool q 0
  | VShape [] | VArray2 _ [] | VArray1 [] | VSortedDict [] => true
  | _ => false
  end.

(** [a / b] on numbers. *)
Definition py_truediv (a b : Q) : M Q :=
  if Qeq_bool b 0 then raise ZeroDivisionError else ret (a / b)%Q.

(** [NNPolicyManager.evaluation()], lines 219-252.  [wins] is
    [results[2]['wins']], what the tournament reports for the candidate. *)
Definition evaluation (wins : Z) : M unit :=
  log "_logger" INFO (Text "Running Evaluation at timestep {self._training_step}");;;
  simulator <- getattr "simulator";;
  (if falsy simulator then
     raise (ValueError "Cannot run NNPolicyManager in training mode without a simulator")
   else ret tt);;;
  simulator <- getattr "simulator";;
  (match simulator with
   | VSimulator _ => ret tt
   | _ => raise (AttributeError "environment")
   end);;;
  (* current_mcts = MCTS(env, NNPolicyManager(...)) *)
  global "MCTS";;;
  global "NNPolicyManager";;;
  getattr "model";;; getattr "alpha";;; getattr "C";;;
  construct ["model"; "alpha"; "C"; "temperature"; "optimize"];;;
  (* next_mcts = MCTS(env, NNPolicyManager(...)) *)
  global "MCTS";;;
  global "NNPolicyManager";;;
  getattr "_next_model";;; getattr "alpha";;; getattr "C";;;
  construct ["model"; "alpha"; "C"; "temperature"; "optimize"];;;
  (* results = self.simulator.simulate([current_agent, next_agent], n=validation_games) *)
  getattr "simulator";;;
  global "current_agent";;;
  global "next_agent";;;
  global "validation_games";;;
  games <- getattr_float "validation_games";;
  fraction <- py_truediv (inject_Z wins) games;;
  threshold <- getattr_float "update_threshold";;
  if negb (Qle_bool fraction threshold) then
    getattr "info";;;
    candidate <- (v <- getattr "_next_model";; as_model v);;
    live <- clone candidate;;
    setattr "model" (VModel live)
  else ret tt.

(** ** Managers and inputs used below *)

(** Another party binds an attribute of the manager, as in
    [pm.replay_ready = threading.Event()]. *)
Definition attach (name : string) (v : pyval) (w : world) : world :=
  World (<[name := v]> (attrs w)) (trace w) (next_ref w).

(** An environment with a one-cell state and the two actions 0 and 1. *)
Definition two_actions : environment := Environment [1%nat] 2 [0; 1].

(** The [k]-th sample of a run: a node whose state and edge values are
    built from [k], with reward [k]. *)
Definition sample (k : nat) : node * Q :=
  (Node [inject_Z (Z.of_nat k)] [1%nat] (fun i => inject_Z (Z.of_nat (k + i))),
   inject_Z (Z.of_nat k)).

(** The first [n] samples, numbered from 1. *)
Definition samples (n : nat) : list (node * Q) := map sample (seq 1 n).

(** The rows of [a] at the indices [idx]. *)
Definition rows_at {A} (a : list A) (idx : list Z) : list A :=
  omap (fun i => a !! Z.to_nat i) idx.

(** The exception, if any, with which the model collaborator first answers
    a [fit] or a [save] of the training loop, when the loop starts at
    training step [step] with the next checkpoint at [checkpoint]: the loop
    asks for one [fit] per turn, and for a [save] in the turns whose step
    reaches the checkpoint. *)
Fixpoint first_failure (step checkpoint interval : Z) (schedule : list tick)
    : option exn :=
  match schedule with
  | [] => None
  | t :: rest =>
      if stop_requested t then None
      else match fit_answer t with
           | Throws e => Some e
           | Answers _ =>
               if step + 1 =? checkpoint then
                 match save_answer t with
                 | Throws e => Some e
                 | Answers _ =>
                     first_failure (step + 1) (checkpoint + interval) interval rest
                 end
               else first_failure (step + 1) checkpoint interval rest
           end
  end.

(** The replay buffer of a manager, read off its attributes: the shape of
    a state slot, the write cursor [c], the modulus [m] of [update]
    ([min_train_capacity]), the number [n] of policies, the three arrays,
    and the readiness event ([None] when the attribute is unbound). *)
Record buffer (w : world) (shape : list nat) (c m n : Z)
    (ss ps : list (list Q)) (rs : list Q) (ready : option bool) : Prop := Buffer {
  buf_logger : attrs w !! "_logger" = Some (VLogger "NNPolicyManager");
  buf_cursor : attrs w !! "_replay_index" = Some (VInt c);
  buf_modulus : attrs w !! "min_train_capacity" = Some (VInt m);
  buf_n : attrs w !! "_n_policies" = Some (VInt n);
  buf_states : attrs w !! "replay_states" = Some (VArray2 shape ss);
  buf_policies : attrs w !! "replay_policies" = Some (VArray2 [Z.to_nat n] ps);
  buf_rewards : attrs w !! "replay_rewards" = Some (VArray1 rs);
  buf_ready : attrs w !! "replay_ready" = VEvent <$> ready
}.

(** The state of the node is an array of the shape of a state slot. *)
Definition fits (shape : list nat) (nd : node) : bool :=
  bool_decide (state_dims nd = shape)
  && (length (state nd) =? product shape)%nat.

(** The readiness event after one more [update], the cursor being [c]
    before the call. *)
Definition ready_next (c m : Z) (ready : option bool) : option bool :=
  match ready with
  | Some false => Some (c + 1 >? m)
  | r => r
  end.

(** The readiness event after [k] more calls of [update]. *)
Fixpoint ready_after (c m : Z) (ready : option bool) (k : nat) : option bool :=
  match k with
  | O => ready
  | S k' => ready_after (c + 1) m (ready_next c m ready) k'
  end.

(** How the successive calls of [updates] end. *)
Fixpoint outcomes (samples : list (node * Q)) (w : world) : list (outcome unit) :=
  match samples with
  | [] => []
  | (nd, reward) :: rest =>
      fst (update nd reward w) :: outcomes rest (snd (update nd reward w))
  end.

(** The default configuration with another [memory_size]. *)
Definition with_memory_size (K : Z) : config :=
  {| cfg_checkpoint := cfg_checkpoint default_config;
     cfg_validation_games := cfg_validation_games default_config;
     cfg_update_threshold := cfg_update_threshold default_config;
     cfg_memory_size := K;
     cfg_alpha := cfg_alpha default_config;
     cfg_epsilon := cfg_epsilon default_config;
     cfg_C := cfg_C default_config;
     cfg_temperature_schedule := cfg_temperature_schedule default_config;
     cfg_batch_size := cfg_batch_size default_config;
     cfg_training := cfg_training default_config |}.

(** A manager whose training loop can run, read off its attributes: the
    write cursor [c], the capacity [K], the three arrays (long enough for
    every index below [min c K]), the candidate model, the training step
    [s], the next checkpoint [cp] and the checkpoint interval [itv], the
    batch size [b], and both events set. *)
Record trainer (w : world) (c K : Z) (ss ps : list (list Q)) (rs : list Q)
    (cand : nat) (s cp itv b : Z) : Prop := Trainer {
  tr_logger : attrs w !! "_nn_logger" = Some (VLogger "NNPolicyManager|Network");
  tr_cursor : attrs w !! "_replay_index" = Some (VInt c);
  tr_maxlen : attrs w !! "replay_maxlen" = Some (VInt K);
  tr_states : exists shape, attrs w !! "replay_states" = Some (VArray2 shape ss);
  tr_policies : exists shape, attrs w !! "replay_policies" = Some (VArray2 shape ps);
  tr_rewards : attrs w !! "replay_rewards" = Some (VArray1 rs);
  tr_model : attrs w !! "_next_model" = Some (VModel cand);
  tr_step : attrs w !! "_training_step" = Some (VInt s);
  tr_checkpoint : attrs w !! "checkpoint" = Some (VInt cp);
  tr_interval : attrs w !! "checkpoint_interval" = Some (VInt itv);
  tr_batch : attrs w !! "batch_size" = Some (VInt b);
  tr_ready : attrs w !! "replay_ready" = Some (VEvent true);
  tr_optimize : attrs w !! "_optimize_event" = Some (VEvent true);
  tr_modulus : exists m, attrs w !! "min_train_capacity" = Some (VInt m);
  tr_live : 0 < Z.min c K;
  tr_size : 0 <= b;
  tr_len_states : Z.min c K <= Z.of_nat (length ss);
  tr_len_policies : Z.min c K <= Z.of_nat (length ps);
  tr_len_rewards : Z.min c K <= Z.of_nat (length rs)
}.

(** The events by which the loop asks for a batch and submits it. *)
Definition is_request (ev : event) : bool :=
  match ev with
  | EvRandint _ _ | EvFit _ _ _ _ _ => true
  | _ => false
  end.

(** A manager after six [update] calls, to which both events have been
    attached, set. *)
Definition trained : world :=
  attach "_optimize_event" (VEvent true)
    (attach "replay_ready" (VEvent true)
       (updates (samples 6) (fresh two_actions default_config))).

(** A turn in which the model answers, and one in which [fit] raises. *)
Definition quiet_tick : tick :=
  Tick false (fun k => Z.of_nat k) (Answers [1 # 2]%Q) (Answers tt).
Definition failing_tick : tick :=
  Tick false (fun k => Z.of_nat k) (Throws (CollaboratorError "fit failed"))
    (Answers tt).
(** A turn in which [fit] answers and [save] raises. *)
Definition unsaved_tick : tick :=
  Tick false (fun k => Z.of_nat k) (Answers [1 # 2]%Q)
    (Throws (CollaboratorError "save failed")).

(** The replay arrays of [trained]. *)
Definition trained_states : list (list Q) :=
  Eval vm_compute in
    match attrs trained !! "replay_states" with
    | Some (VArray2 _ rows) => rows
    | _ => []
    end.
Definition trained_policies : list (list Q) :=
  Eval vm_compute in
    match attrs trained !! "replay_policies" with
    | Some (VArray2 _ rows) => rows
    | _ => []
    end.
Definition trained_rewards : list Q :=
  Eval vm_compute in
    match attrs trained !! "replay_rewards" with
    | Some (VArray1 xs) => xs
    | _ => []
    end.

(** The sum of a vector. *)
Definition Qsum (v : list Q) : Q := fold_right Qplus 0%Q v.

(** A schedule with thresholds 0, 3 and 7, and one whose only threshold is
    7. *)
Definition three_stage_schedule : list (Z * Q) :=
  [(0, 1%Q); (3, 1 # 2); (7, 1 # 4)].
Definition late_schedule : list (Z * Q) := [(7, 1 # 4)].

(** Scores with a NaN, a finite value and an infinity. *)
Definition wild_scores (nd : node) (probabilities : list Q) (c : Q) : list npfloat :=
  [NaN; Fin 1; PInf].

(** ** The constructor's attributes *)

(** The names bound by the constructor before it allocates the replay
    arrays, and all the names it binds when it returns. *)
Definition early_names : gset string :=
  list_to_set
    [ "_logger"; "_nn_logger"; "_next_model"; "model"; "_input_dims"; "alpha";
      "C"; "_training"; "_state_shape"; "_n_policies"; "simulator";
      "checkpoint_interval"; "checkpoint"; "_training_step"; "epsilon";
      "validation_games"; "update_threshold" ].

Definition constructor_names : gset string :=
  early_names ∪
  list_to_set
    [ "replay_states"; "replay_policies"; "replay_rewards"; "replay_maxlen";
      "_replay_index"; "min_train_capacity"; "_train_thread"; "batch_size";
      "temperature_schedule" ].

(** The names that the methods read and no statement of the class binds. *)
Definition never_bound : list string :=
  [ "replay_ready"; "_optimize_event"; "tempurature_schedule"; "info" ].

(** A constructed manager, with [replay_ready] left unbound ([None]) or
    bound by the caller to an event in the given state. *)
Definition constructed (env : environment) (cfg : config) (ready : option bool)
    : world :=
  match ready with
  | None => fresh env cfg
  | Some flag => attach "replay_ready" (VEvent flag) (fresh env cfg)
  end.

(** The records "Replay Table Ready" of a log. *)
Definition is_ready_record (ev : event) : bool :=
  match ev with
  | EvLog _ INFO (Text s) => String.eqb s "Replay Table Ready"
  | _ => false
  end.

Definition ready_records (tr : list event) : nat :=
  length (List.filter is_ready_record tr).

(** ** What a method leaves alone *)

(** [within R m]: running [m] takes every manager [w] to one related to [w]
    by [R], however [m] ends. *)
Definition within (R : world -> world -> Prop) {A} (m : M A) : Prop :=
  forall w, R w (snd (m w)).

(** Nothing changes: no attribute, no event, no new object. *)
Definition unchanged (w w' : world) : Prop := w' = w.

(** The attribute [name] is bound as before, or unbound as before. *)
Definition keeps (name : string) (w w' : world) : Prop :=
  attrs w' !! name = attrs w !! name.



(** The error records of a log, and its [fit] calls. *)
Definition is_error_record (ev : event) : bool :=
  match ev with
  | EvLog _ ERROR _ => true
  | _ => false
  end.

Definition error_records (tr : list event) : nat :=
  length (List.filter is_error_record tr).

Definition is_fit (ev : event) : bool :=
  match ev with
  | EvFit _ _ _ _ _ => true
  | _ => false
  end.

Definition fit_calls (tr : list event) : nat := length (List.filter is_fit tr).

(** No error record is added to the log. *)
Definition quiet (w w' : world) : Prop :=
  error_records (trace w') = error_records (trace w).

(** The score that [pi[actions]] reads for the action [a]. *)
Definition score_at (pi : list npfloat) (a : Z) : option npfloat :=
  match np_index (length pi) a with
  | Some k => pi !! k
  | None => None
  end.

(** The attributes that [update] binds, and those that a run of
    [_train_process] binds (the optimize event only through the other
    thread that clears it). *)
Definition update_writes : list string :=
  [ "replay_states"; "replay_policies"; "replay_rewards"; "_replay_index";
    "replay_ready" ].

Definition training_writes : list string :=
  [ "_training_step"; "checkpoint"; "_optimize_event" ].

(** A turn in which no stop is requested and the model answers both calls. *)
Definition cooperative (t : tick) : bool :=
  negb (stop_requested t)
  && match fit_answer t with Answers _ => true | Throws _ => false end
  && match save_answer t with Answers _ => true | Throws _ => false end.

(** ** [ZeroPolicyManager] *)

(** A new model object, as a constructor of a network class returns. *)
Definition new_model : M nat :=
  fun w => (Return (next_ref w), World (attrs w) (trace w) (S (next_ref w))).

(** [ZeroPolicyManager.__init__(environment, residual_layers, filters,
    kernel_size, ...)], lines 258-269: the shapes are read off the
    environment, the network is built by the global [ZeroNN], and the
    constructor of [NNPolicyManager] does the rest. *)
Definition ZeroPolicyManager__init__ (env : environment)
    (residual_layers filters kernel_size : Z) (cfg : config) : M unit :=
  let input_shape := state_shape env in
  let output_shape := action_space env in
  global "ZeroNN";;;
  model <- new_model;;
  __init__ model (Z.of_nat (S (length input_shape))) env cfg.

(** Scores that differ from [wild_scores] at the index 2 only. *)
Definition other_scores (nd : node) (probabilities : list Q) (c : Q) : list npfloat :=
  [NaN; Fin 1; NInf].

(** An environment whose action set names the index 5. *)
Definition stray_action : environment := Environment [1%nat] 2 [0; 5].

(** ** Histories of calls *)

(** A call that a driver makes on a manager. *)
Inductive method_call : Type :=
| CallUpdate (nd : node) (reward : Q)
| CallTrain (schedule : list tick)
| CallEvaluation (wins : Z)
| CallSelection (nd : node) (env : environment) (root : bool)
| CallRollout (nd : node) (env : environment).

(** The manager after a history of calls, the driver carrying on after a
    call that raises. *)
Fixpoint history (predict : nat -> list Q -> list Q)
    (puct : node -> list Q -> Q -> list npfloat)
    (calls : list method_call) (w : world) : world :=
  match calls with
  | [] => w
  | call :: rest =>
      history predict puct rest
        match call with
        | CallUpdate nd reward => snd (update nd reward w)
        | CallTrain schedule => snd (_train_process schedule w)
        | CallEvaluation wins => snd (evaluation wins w)
        | CallSelection nd env root => snd (selection predict puct nd env root w)
        | CallRollout nd env => snd (rollout predict puct nd env w)
        end
  end.

(** A manager after the [update] calls of [calls], with both events
    attached, set. *)
Definition ready_to_train (env : environment) (cfg : config)
    (calls : list (node * Q)) : world :=
  attach "_optimize_event" (VEvent true)
    (attach "replay_ready" (VEvent true) (updates calls (fresh env cfg))).

(** * Properties *)

(** ** Running a method body step by step *)

Lemma run_getattr (name : string) (v : pyval) (w : world) :
  attrs w !! name = Some v -> getattr name w = (Return v, w).
Proof. intros H. unfold getattr. rewrite H. reflexivity. Qed.

Lemma run_getattr_unbound (name : string) (w : world) :
  attrs w !! name = None -> getattr name w = (Raise (AttributeError name), w).
Proof. intros H. unfold getattr. rewrite H. reflexivity. Qed.

Lemma run_getattr_int (name : string) (z : Z) (w : world) :
  attrs w !! name = Some (VInt z) -> getattr_int name w = (Return z, w).
Proof.
  intros H. unfold getattr_int, bind. rewrite (run_getattr _ _ _ H). reflexivity.
Qed.

Lemma run_getattr_float (name : string) (q : Q) (w : world) :
  attrs w !! name = Some (VFloat q) -> getattr_float name w = (Return q, w).
Proof.
  intros H. unfold getattr_float, bind. rewrite (run_getattr _ _ _ H). reflexivity.
Qed.

Lemma run_log (logger name : string) (lvl : level) (msg : message) (w : world) :
  attrs w !! logger = Some (VLogger name) ->
  log logger lvl msg w =
  (Return tt, World (attrs w) (trace w ++ [EvLog name lvl msg]) (next_ref w)).
Proof.
  intros H. unfold log, bind. rewrite (run_getattr _ _ _ H). reflexivity.
Qed.

Lemma run_setattr (name : string) (v : pyval) (w : world) :
  setattr name v w =
  (Return tt, World (<[name := v]> (attrs w)) (trace w) (next_ref w)).
Proof. reflexivity. Qed.

Lemma run_emit (e : event) (w : world) :
  emit e w = (Return tt, World (attrs w) (trace w ++ [e]) (next_ref w)).
Proof. reflexivity. Qed.

Lemma np_index_in (len : nat) (i : Z) :
  0 <= i < Z.of_nat len -> np_index len i = Some (Z.to_nat i).
Proof.
  intros H. unfold np_index.
  destruct (0 <=? i) eqn:E1; [| lia].
  destruct (i <? Z.of_nat len) eqn:E2; [reflexivity | lia].
Qed.

Lemma run_np_setitem {A} (a : list A) (i : Z) (x : A) (w : world) :
  0 <= i < Z.of_nat (length a) ->
  np_setitem a i x w = (Return (<[Z.to_nat i := x]> a), w).
Proof. intros H. unfold np_setitem. rewrite np_index_in by lia. reflexivity. Qed.

Lemma run_np_setrow {A} (shape : list nat) (a : list (list A)) (i : Z)
    (dims : list nat) (value : list A) (w : world) :
  0 <= i < Z.of_nat (length a) ->
  np_setrow shape a i dims value w =
  match broadcast_row shape dims value with
  | Some row => (Return (<[Z.to_nat i := row]> a), w)
  | None => (Raise (ValueError "could not broadcast input array"), w)
  end.
Proof.
  intros H. unfold np_setrow. rewrite np_index_in by lia.
  destruct (broadcast_row shape dims value); reflexivity.
Qed.

(** ** Broadcasting *)

Lemma chunks_concat {A} (size n : nat) :
  forall data : list A,
  length data = (n * size)%nat -> List.concat (chunks size n data) = data.
Proof.
  induction n as [|n IH]; intros data H; cbn [chunks concat].
  - destruct data; [reflexivity | discriminate H].
  - rewrite IH by (rewrite length_drop; lia). apply take_drop.
Qed.

Lemma chunks_length {A} (size n : nat) :
  forall data : list A,
  length data = (n * size)%nat ->
  Forall (fun piece => length piece = size) (chunks size n data).
Proof.
  induction n as [|n IH]; intros data H; cbn [chunks]; constructor.
  - rewrite length_take. lia.
  - apply IH. rewrite length_drop. lia.
Qed.

(** A value that has the shape of the slot is stored as it is. *)
Lemma broadcast_same {A} (shape : list nat) :
  forall data : list A,
  length data = product shape -> broadcast shape shape data = Some data.
Proof.
  induction shape as [|d shape IH]; intros data H; cbn [broadcast];
    [reflexivity|].
  rewrite Nat.eqb_refl.
  change (product (d :: shape)) with (d * product shape)%nat in H.
  assert (E : mapM (broadcast shape shape) (chunks (product shape) d data)
              = Some (chunks (product shape) d data)).
  { apply mapM_Some. apply Forall_Forall2_diag.
    eapply Forall_impl; [exact (chunks_length _ _ _ H)|].
    intros piece Hp. cbn beta in Hp. apply IH. exact Hp. }
  rewrite E. cbn [fmap option_fmap option_map]. f_equal.
  apply chunks_concat. exact H.
Qed.

Lemma broadcast_row_same {A} (shape : list nat) (data : list A) :
  length data = product shape -> broadcast_row shape shape data = Some data.
Proof.
  intros H. unfold broadcast_row. rewrite Nat.sub_diag.
  cbn [squeeze_leading]. rewrite Nat.ltb_irrefl, Nat.sub_diag.
  cbn [replicate app]. apply broadcast_same. exact H.
Qed.

Lemma fits_row (shape : list nat) (nd : node) :
  fits shape nd = true ->
  broadcast_row shape (state_dims nd) (state nd) = Some (state nd).
Proof.
  unfold fits. intros H. apply andb_prop in H as [Hd Hl].
  apply bool_decide_eq_true in Hd. apply Nat.eqb_eq in Hl.
  rewrite Hd. apply broadcast_row_same. exact Hl.
Qed.

Lemma edge_values_row (nd : node) (n : Z) :
  let edge_values := map (edge_value nd) (seq 0 (Z.to_nat n)) in
  broadcast_row [Z.to_nat n] [length edge_values] edge_values = Some edge_values.
Proof.
  cbv zeta. rewrite length_map, length_seq.
  apply broadcast_row_same. rewrite length_map, length_seq. cbn. lia.
Qed.

(** Lookups through the attributes bound so far. *)
Ltac look :=
  cbn [attrs trace next_ref];
  repeat first
    [ rewrite lookup_insert_ne by (intro; discriminate)
    | rewrite lookup_insert_eq ].

Ltac solve_lookup := look; first [eassumption | reflexivity].

Ltac reduce :=
  cbv beta iota delta
    [ret raise as_int as_float as_array1 as_array2 as_ndarray as_model as_items
     is_set call];
  cbn [attrs trace next_ref].

(** One statement of a method body: the attribute it reads is looked up in
    the hypotheses. *)
Ltac step :=
  unfold bind;
  lazymatch goal with
  | |- context [log ?l ?lvl ?msg ?w] =>
      erewrite (run_log l _ lvl msg w) by solve_lookup
  | |- context [getattr_int ?n ?w] =>
      erewrite (run_getattr_int n _ w) by solve_lookup
  | |- context [getattr_float ?n ?w] =>
      erewrite (run_getattr_float n _ w) by solve_lookup
  | |- context [getattr ?n ?w] =>
      first [ erewrite (run_getattr n _ w) by solve_lookup
            | rewrite (run_getattr_unbound n w) by solve_lookup ]
  | |- context [setattr ?n ?v ?w] => rewrite (run_setattr n v w)
  | |- context [emit ?e ?w] => rewrite (run_emit e w)
  | |- context [np_setitem ?a ?i ?x ?w] =>
      rewrite (run_np_setitem a i x w) by lia
  end;
  reduce.

(** ** The replay buffer *)

(** What [update] does to a manager whose buffer attributes are bound: a
    state that numpy cannot broadcast to a slot is refused before anything
    is written; otherwise the sample goes to slot
    [cursor mod min_train_capacity], the cursor moves on, and only then is
    [replay_ready] looked up. *)
Lemma update_run (nd : node) (reward : Q) (w : world) (lg : string)
    (shape : list nat) (c m n : Z) (ss ps : list (list Q)) (rs : list Q) :
  attrs w !! "_logger" = Some (VLogger lg) ->
  attrs w !! "_replay_index" = Some (VInt c) ->
  attrs w !! "min_train_capacity" = Some (VInt m) ->
  attrs w !! "_n_policies" = Some (VInt n) ->
  attrs w !! "replay_states" = Some (VArray2 shape ss) ->
  attrs w !! "replay_policies" = Some (VArray2 [Z.to_nat n] ps) ->
  attrs w !! "replay_rewards" = Some (VArray1 rs) ->
  0 <= c -> 0 < m ->
  m <= Z.of_nat (length ss) -> m <= Z.of_nat (length ps) ->
  m <= Z.of_nat (length rs) ->
  update nd reward w =
    let i := Z.to_nat (c mod m) in
    let t1 := trace w ++ [EvLog lg INFO (Text "Adding state to replay table")] in
    match broadcast_row shape (state_dims nd) (state nd) with
    | None =>
        (Raise (ValueError "could not broadcast input array"),
         World (attrs w) t1 (next_ref w))
    | Some row =>
        let a1 :=
          <["_replay_index" := VInt (c + 1)]>
            (<["replay_rewards" := VArray1 (<[i := reward]> rs)]>
              (<["replay_policies" :=
                   VArray2 [Z.to_nat n]
                     (<[i := map (edge_value nd) (seq 0 (Z.to_nat n))]> ps)]>
                (<["replay_states" := VArray2 shape (<[i := row]> ss)]> (attrs w)))) in
        match attrs w !! "replay_ready" with
        | None => (Raise (AttributeError "replay_ready"), World a1 t1 (next_ref w))
        | Some (VEvent true) => (Return tt, World a1 t1 (next_ref w))
        | Some (VEvent false) =>
            if c + 1 >? m then
              (Return tt,
               World (<["replay_ready" := VEvent true]> a1)
                     (t1 ++ [EvLog lg INFO (Text "Replay Table Ready")]) (next_ref w))
            else (Return tt, World a1 t1 (next_ref w))
        | Some _ => (Raise (AttributeError "is_set"), World a1 t1 (next_ref w))
        end
    end.
Proof.
  destruct w as [a t r]; cbn [attrs trace next_ref].
  intros Hlg Hc Hm Hn Hss Hps Hrs Hc0 Hm0 Lss Lps Lrs.
  assert (Hi : 0 <= c mod m < m) by (apply Z.mod_pos_bound; lia).
  unfold update. do 3 step.
  unfold py_mod. destruct (m =? 0) eqn:E; [lia|]. reduce.
  do 2 step. cbn [fst snd]. unfold bind.
  rewrite run_np_setrow by lia.
  destruct (broadcast_row shape (state_dims nd) (state nd)) as [row|];
    [|reflexivity].
  do 2 step. cbn [fst snd]. unfold bind.
  rewrite run_np_setrow by lia. rewrite edge_values_row.
  do 6 step.
  destruct (a !! "replay_ready") as [v|] eqn:Hr.
  - step. destruct v; try reflexivity.
    destruct flag; reduce; [reflexivity|].
    cbn [negb]. do 2 step.
    destruct (c + 1 >? m); [|reflexivity].
    step. unfold event_set. do 2 step. reflexivity.
  - step. reflexivity.
Qed.

Lemma fresh_attrs (env : environment) (cfg : config) :
  0 <= cfg_memory_size cfg ->
  let K := Z.to_nat (cfg_memory_size cfg) in
  buffer (fresh env cfg) (state_shape env) 0 (cfg_memory_size cfg / 2)
    (Z.of_nat (action_space env))
    (replicate K (replicate (product (state_shape env)) 0%Q))
    (replicate K (replicate (action_space env) 0%Q))
    (replicate K 0%Q) None
  /\ attrs (fresh env cfg) !! "replay_maxlen" = Some (VInt (cfg_memory_size cfg)).
Proof.
  intros HK K.
  assert (E : (cfg_memory_size cfg <? 0) = false) by lia.
  unfold fresh, __init__, np_zeros, py_floordiv. rewrite E.
  change (2 =? 0) with false.
  cbv beta iota delta [bind setattr clone ret blank attrs trace next_ref snd].
  split; [split|]; look; rewrite ?Nat2Z.id; reflexivity.
Qed.

Lemma attach_ready (w : world) (shape : list nat) (c m n : Z)
    (ss ps : list (list Q)) (rs : list Q) (ready : option bool) (b : bool) :
  buffer w shape c m n ss ps rs ready ->
  buffer (attach "replay_ready" (VEvent b) w) shape c m n ss ps rs (Some b).
Proof.
  intros []. unfold attach. split; look; assumption || reflexivity.
Qed.

(** One [update] that numpy accepts, as a transition of the view: [row] is
    the state as broadcast to the slot. *)
Lemma update_buffer_row (nd : node) (reward : Q) (w : world) (shape : list nat)
    (c m n : Z) (ss ps : list (list Q)) (rs : list Q) (ready : option bool)
    (row : list Q) :
  buffer w shape c m n ss ps rs ready ->
  0 <= c -> 0 < m ->
  m <= Z.of_nat (length ss) -> m <= Z.of_nat (length ps) ->
  m <= Z.of_nat (length rs) ->
  broadcast_row shape (state_dims nd) (state nd) = Some row ->
  let i := Z.to_nat (c mod m) in
  buffer (snd (update nd reward w)) shape (c + 1) m n
    (<[i := row]> ss)
    (<[i := map (edge_value nd) (seq 0 (Z.to_nat n))]> ps)
    (<[i := reward]> rs)
    (ready_next c m ready)
  /\ fst (update nd reward w) =
     match ready with
     | None => Raise (AttributeError "replay_ready")
     | Some _ => Return tt
     end.
Proof.
  intros [Hlg Hc Hm Hn Hss Hps Hrs Hr] Hc0 Hm0 Lss Lps Lrs Hrow i.
  rewrite (update_run nd reward w _ shape c m n ss ps rs
             Hlg Hc Hm Hn Hss Hps Hrs Hc0 Hm0 Lss Lps Lrs).
  cbv zeta. rewrite Hrow, Hr. fold i.
  destruct ready as [[|]|]; cbn [fmap option_fmap option_map ready_next fst snd].
  - split; [split|]; look; assumption || reflexivity.
  - destruct (c + 1 >? m); cbn [fst snd];
      (split; [split|]; look; assumption || reflexivity).
  - split; [split|]; look; assumption || reflexivity.
Qed.

(** One [update] with a node whose state has the shape of a slot. *)
Lemma update_buffer (nd : node) (reward : Q) (w : world) (shape : list nat)
    (c m n : Z) (ss ps : list (list Q)) (rs : list Q) (ready : option bool) :
  buffer w shape c m n ss ps rs ready ->
  0 <= c -> 0 < m ->
  m <= Z.of_nat (length ss) -> m <= Z.of_nat (length ps) ->
  m <= Z.of_nat (length rs) ->
  fits shape nd = true ->
  let i := Z.to_nat (c mod m) in
  buffer (snd (update nd reward w)) shape (c + 1) m n
    (<[i := state nd]> ss)
    (<[i := map (edge_value nd) (seq 0 (Z.to_nat n))]> ps)
    (<[i := reward]> rs)
    (ready_next c m ready)
  /\ fst (update nd reward w) =
     match ready with
     | None => Raise (AttributeError "replay_ready")
     | Some _ => Return tt
     end.
Proof.
  intros Hb Hc0 Hm0 Lss Lps Lrs Hfit.
  exact (update_buffer_row nd reward w shape c m n ss ps rs ready (state nd)
           Hb Hc0 Hm0 Lss Lps Lrs (fits_row shape nd Hfit)).
Qed.

(** One [update] with a state that numpy cannot broadcast to a slot: the
    record of the call is logged, [ValueError] is raised, and no attribute
    has changed. *)
Lemma update_refused (nd : node) (reward : Q) (w : world) (shape : list nat)
    (c m n : Z) (ss ps : list (list Q)) (rs : list Q) (ready : option bool) :
  buffer w shape c m n ss ps rs ready ->
  0 <= c -> 0 < m ->
  m <= Z.of_nat (length ss) -> m <= Z.of_nat (length ps) ->
  m <= Z.of_nat (length rs) ->
  broadcast_row shape (state_dims nd) (state nd) = None ->
  update nd reward w
  = (Raise (ValueError "could not broadcast input array"),
     World (attrs w)
       (trace w ++ [EvLog "NNPolicyManager" INFO (Text "Adding state to replay table")])
       (next_ref w)).
Proof.
  intros [Hlg Hc Hm Hn Hss Hps Hrs Hr] Hc0 Hm0 Lss Lps Lrs Hrow.
  rewrite (update_run nd reward w _ shape c m n ss ps rs
             Hlg Hc Hm Hn Hss Hps Hrs Hc0 Hm0 Lss Lps Lrs).
  cbv zeta. rewrite Hrow. reflexivity.
Qed.

Lemma buffer_trace (w : world) (shape : list nat) (c m n : Z)
    (ss ps : list (list Q)) (rs : list Q) (ready : option bool)
    (tr : list event) :
  buffer w shape c m n ss ps rs ready ->
  buffer (World (attrs w) tr (next_ref w)) shape c m n ss ps rs ready.
Proof. intros []. split; assumption. Qed.

Lemma ready_after_unbound (c m : Z) (k : nat) : ready_after c m None k = None.
Proof. revert c. induction k as [|k IH]; intros c; [reflexivity | apply IH]. Qed.

Lemma ready_after_set (c m : Z) (k : nat) :
  ready_after c m (Some true) k = Some true.
Proof. revert c. induction k as [|k IH]; intros c; [reflexivity | apply IH]. Qed.

Lemma ready_after_unset (c m : Z) (k : nat) :
  c <= m -> ready_after c m (Some false) k = Some (m <? c + Z.of_nat k).
Proof.
  revert c. induction k as [|k IH]; intros c Hc.
  - cbn [ready_after]. f_equal. symmetry. apply Z.ltb_ge. lia.
  - cbn [ready_after ready_next].
    destruct (c + 1 >? m) eqn:E.
    + rewrite ready_after_set. f_equal. symmetry. apply Z.ltb_lt. lia.
    + rewrite IH by lia. f_equal. f_equal. lia.
Qed.

(** A run of [update] calls with states of the shape of a slot: the cursor
    counts the calls, the arrays keep their lengths, and every call ends
    the same way. *)
Lemma updates_buffer (calls : list (node * Q)) :
  forall (w : world) (shape : list nat) (c m n : Z) (ss ps : list (list Q))
         (rs : list Q) (ready : option bool),
  buffer w shape c m n ss ps rs ready ->
  0 <= c -> 0 < m ->
  m <= Z.of_nat (length ss) -> m <= Z.of_nat (length ps) ->
  m <= Z.of_nat (length rs) ->
  forallb (fun call => fits shape (fst call)) calls = true ->
  (exists ss' ps' rs',
      buffer (updates calls w) shape (c + Z.of_nat (length calls)) m n ss' ps' rs'
        (ready_after c m ready (length calls))
      /\ length ss' = length ss /\ length ps' = length ps
      /\ length rs' = length rs)
  /\ outcomes calls w =
     replicate (length calls)
       (match ready with
        | None => Raise (AttributeError "replay_ready")
        | Some _ => Return tt
        end).
Proof.
  induction calls as [|[nd reward] calls IH];
    intros w shape c m n ss ps rs ready Hb Hc Hm Lss Lps Lrs Hfit.
  - cbn [updates outcomes length ready_after replicate]. split; [|reflexivity].
    exists ss, ps, rs. rewrite Z.add_0_r. auto.
  - cbn [updates outcomes length ready_after replicate].
    cbn [forallb fst] in Hfit. apply andb_prop in Hfit as [Hnd Hfit].
    destruct (update_buffer nd reward w shape c m n ss ps rs ready
                Hb Hc Hm Lss Lps Lrs Hnd) as [Hb' Ho].
    destruct (IH _ _ _ _ _ _ _ _ _ Hb')
      as [(ss' & ps' & rs' & Hb'' & L1 & L2 & L3) Hos];
      rewrite ?length_insert; try lia; try exact Hfit.
    split.
    + exists ss', ps', rs'.
      replace (c + Z.of_nat (S (length calls)))
        with (c + 1 + Z.of_nat (length calls)) by lia.
      rewrite L1, L2, L3, !length_insert. auto.
    + rewrite Ho, Hos. f_equal. f_equal. destruct ready as [[|]|]; reflexivity.
Qed.

Lemma fresh_buffer (env : environment) (cfg : config) (calls : list (node * Q))
    (ready : option bool) (w0 : world) :
  2 <= cfg_memory_size cfg ->
  buffer w0 (state_shape env) 0 (cfg_memory_size cfg / 2)
    (Z.of_nat (action_space env))
    (replicate (Z.to_nat (cfg_memory_size cfg))
       (replicate (product (state_shape env)) 0%Q))
    (replicate (Z.to_nat (cfg_memory_size cfg))
       (replicate (action_space env) 0%Q))
    (replicate (Z.to_nat (cfg_memory_size cfg)) 0%Q) ready ->
  forallb (fun call => fits (state_shape env) (fst call)) calls = true ->
  let m := cfg_memory_size cfg / 2 in
  0 < m
  /\ (exists ss ps rs,
        buffer (updates calls w0) (state_shape env) (Z.of_nat (length calls)) m
          (Z.of_nat (action_space env)) ss ps rs
          (ready_after 0 m ready (length calls))
        /\ m <= Z.of_nat (length ss) /\ m <= Z.of_nat (length ps)
        /\ m <= Z.of_nat (length rs))
  /\ outcomes calls w0 =
     replicate (length calls)
       (match ready with
        | None => Raise (AttributeError "replay_ready")
        | Some _ => Return tt
        end).
Proof.
  intros HK Hb Hfit m.
  assert (Hm : 0 < m) by (apply Z.div_str_pos; lia).
  assert (Hle : m <= cfg_memory_size cfg)
    by (apply Z.lt_le_incl, Z.div_lt; lia).
  destruct (updates_buffer calls w0 _ 0 m _ _ _ _ ready Hb) as
    [(ss & ps & rs & Hb' & L1 & L2 & L3) Ho];
    rewrite ?length_replicate; try lia; try exact Hfit.
  split; [exact Hm|]. split; [|exact Ho].
  exists ss, ps, rs. rewrite L1, L2, L3, !length_replicate.
  rewrite Z.add_0_l in Hb'. split; [exact Hb'|]. lia.
Qed.

(** C1, at the failing input: with the default capacity of 10 the sixth
    [update] (cursor 5) lands in slot 0, not in slot 5, and after eleven
    calls the buffer holds the five samples 7..11 in slots 0..4 while slots
    5..9 still hold the zeros of the constructor: the write index is the
    cursor modulo [min_train_capacity] (half the capacity), not modulo the
    capacity. *)
Theorem replay_wraps_at_half_capacity :
  attrs (updates (samples 6) (fresh two_actions default_config)) !! "replay_rewards"
  = Some (VArray1 [6; 2; 3; 4; 5; 0; 0; 0; 0; 0]%Q)
  /\ attrs (updates (samples 11) (fresh two_actions default_config)) !! "replay_rewards"
     = Some (VArray1 [11; 7; 8; 9; 10; 0; 0; 0; 0; 0]%Q)
  /\ attrs (updates (samples 11) (fresh two_actions default_config)) !! "_replay_index"
     = Some (VInt 11).
Proof. vm_compute. repeat split. Qed.

(** C2, as stated, fails with capacity 10 and threshold 5: readiness is
    still unset after the fifth [update], and it is the sixth that sets it. *)
Lemma readiness_unset_after_five_updates :
  attrs (updates (samples 5)
           (attach "replay_ready" (VEvent false) (fresh two_actions default_config)))
    !! "replay_ready" = Some (VEvent false)
  /\ attrs (updates (samples 6)
              (attach "replay_ready" (VEvent false) (fresh two_actions default_config)))
       !! "replay_ready" = Some (VEvent true).
Proof. vm_compute. split; reflexivity. Qed.

(** C2 (amended): on a manager whose replay arrays have at least M slots,
    M >= 1 being its minimum-training-capacity, whose cursor is 0 and whose
    readiness event is bound and unset, every [update] with a node whose
    state has the shape of a state slot returns, and after [n] such calls
    the event is set exactly when [n] exceeds M: the call that sets it is
    the (M+1)-th, and it stays set. *)
Theorem readiness_set_by_first_call_past_threshold (w : world)
    (shape : list nat) (M n : Z) (ss ps : list (list Q)) (rs : list Q)
    (calls : list (node * Q)) :
  buffer w shape 0 M n ss ps rs (Some false) ->
  0 < M ->
  M <= Z.of_nat (length ss) -> M <= Z.of_nat (length ps) ->
  M <= Z.of_nat (length rs) ->
  forallb (fun call => fits shape (fst call)) calls = true ->
  attrs (updates calls w) !! "replay_ready"
  = Some (VEvent (M <? Z.of_nat (length calls)))
  /\ outcomes calls w = replicate (length calls) (Return tt).
Proof.
  intros Hb HM Lss Lps Lrs Hfit.
  destruct (updates_buffer calls w shape 0 M n ss ps rs (Some false) Hb)
    as [(ss' & ps' & rs' & Hb' & _) Ho]; try lia; try exact Hfit.
  split; [|exact Ho].
  rewrite (buf_ready _ _ _ _ _ _ _ _ _ Hb'), ready_after_unset by lia.
  reflexivity.
Qed.

(** The theorem at the constructor's defaults (capacity 10, threshold 5),
    after seven calls. *)
Lemma readiness_set_by_first_call_past_threshold_witness :
  attrs (updates (samples 7)
           (attach "replay_ready" (VEvent false) (fresh two_actions default_config)))
    !! "replay_ready"
  = Some (VEvent (5 <? Z.of_nat (length (samples 7)))).
Proof.
  assert (H : 0 <= cfg_memory_size default_config) by (cbn; lia).
  pose proof (attach_ready _ _ _ _ _ _ _ _ _ false
                (proj1 (fresh_attrs two_actions default_config H))) as Hb.
  refine (proj1 (readiness_set_by_first_call_past_threshold _ _ 5 _ _ _ _
                   (samples 7) Hb _ _ _ _ _));
    rewrite ?length_replicate; try reflexivity; cbn; lia.
Defined.

(** C9, as stated, fails for a manager built with [memory_size=1]:
    [min_train_capacity] is 0, the slot computation raises
    [ZeroDivisionError], and nothing has been written: the cursor is still 0
    and the only slot still holds the constructor's zero. *)
Lemma update_with_one_slot_divides_by_zero :
  let w := fresh two_actions (with_memory_size 1) in
  let w' := snd (update (fst (sample 1)) (snd (sample 1)) w) in
  fst (update (fst (sample 1)) (snd (sample 1)) w) = Raise ZeroDivisionError
  /\ attrs w' !! "_replay_index" = Some (VInt 0)
  /\ attrs w' !! "replay_rewards" = Some (VArray1 [0%Q]).
Proof. vm_compute. repeat split. Qed.

(** C9 (amended): on a manager constructed with [memory_size >= 2], every
    call of [update] with a node whose state has the shape of the
    environment's state, the first as well as any later one, writes the
    sample into the replay arrays at slot [cursor mod (memory_size // 2)]
    and increments the cursor, and only then raises [AttributeError] for
    [replay_ready], which the constructor never binds. *)
Theorem update_writes_then_raises (env : environment) (cfg : config)
    (previous : list (node * Q)) (nd : node) (reward : Q) :
  2 <= cfg_memory_size cfg ->
  forallb (fun call => fits (state_shape env) (fst call)) previous = true ->
  fits (state_shape env) nd = true ->
  let w := updates previous (fresh env cfg) in
  let w' := snd (update nd reward w) in
  let slot := Z.to_nat (Z.of_nat (length previous) mod (cfg_memory_size cfg / 2)) in
  fst (update nd reward w) = Raise (AttributeError "replay_ready")
  /\ attrs w !! "_replay_index" = Some (VInt (Z.of_nat (length previous)))
  /\ attrs w' !! "_replay_index" = Some (VInt (Z.of_nat (length previous) + 1))
  /\ exists ss ps rs,
       attrs w' !! "replay_states" = Some (VArray2 (state_shape env) ss)
       /\ attrs w' !! "replay_policies" = Some (VArray2 [action_space env] ps)
       /\ attrs w' !! "replay_rewards" = Some (VArray1 rs)
       /\ ss !! slot = Some (state nd)
       /\ ps !! slot = Some (map (edge_value nd) (seq 0 (action_space env)))
       /\ rs !! slot = Some reward.
Proof.
  intros HK Hprev Hnd w w' slot.
  destruct (fresh_attrs env cfg) as [Hb _]; [lia|].
  destruct (fresh_buffer env cfg previous None (fresh env cfg) HK Hb Hprev)
    as (Hm & (ss & ps & rs & Hb' & L1 & L2 & L3) & _).
  fold w in Hb'.
  destruct (update_buffer nd reward w _ _ _ _ ss ps rs _ Hb') as [Hb'' Ho];
    try lia; try exact Hnd.
  fold w' in Hb''.
  assert (Hs : 0 <= Z.of_nat (length previous) mod (cfg_memory_size cfg / 2)
               < cfg_memory_size cfg / 2) by (apply Z.mod_pos_bound; lia).
  rewrite ready_after_unbound in Ho.
  split; [exact Ho|].
  split; [exact (buf_cursor _ _ _ _ _ _ _ _ _ Hb')|].
  split; [exact (buf_cursor _ _ _ _ _ _ _ _ _ Hb'')|].
  pose proof (buf_policies _ _ _ _ _ _ _ _ _ Hb'') as Hps.
  rewrite Nat2Z.id in Hps.
  eexists _, _, _.
  split; [exact (buf_states _ _ _ _ _ _ _ _ _ Hb'')|].
  split; [exact Hps|].
  split; [exact (buf_rewards _ _ _ _ _ _ _ _ _ Hb'')|].
  fold slot.
  repeat split; apply list_lookup_insert_eq; unfold slot; lia.
Qed.

Lemma update_writes_then_raises_witness :
  2 <= cfg_memory_size default_config
  /\ fst (update (fst (sample 4)) (snd (sample 4))
            (updates (samples 3) (fresh two_actions default_config)))
     = Raise (AttributeError "replay_ready").
Proof.
  assert (H : 2 <= cfg_memory_size default_config) by (cbn; lia).
  split; [exact H|].
  exact (proj1 (update_writes_then_raises two_actions default_config (samples 3)
                  (fst (sample 4)) (snd (sample 4)) H eq_refl eq_refl)).
Defined.

(** ** Selection and action choice *)

(** The attributes that the constructor binds before it allocates the replay
    arrays, whatever [memory_size] is; [tempurature_schedule], the name that
    [action_choice] reads, is not among the names it binds. *)
Lemma fresh_early (env : environment) (cfg : config) :
  attrs (fresh env cfg) !! "_logger" = Some (VLogger "NNPolicyManager")
  /\ attrs (fresh env cfg) !! "model" = Some (VModel 1)
  /\ attrs (fresh env cfg) !! "_next_model" = Some (VModel 0)
  /\ attrs (fresh env cfg) !! "_input_dims" = Some (VInt 4)
  /\ attrs (fresh env cfg) !! "epsilon" = Some (VFloat (cfg_epsilon cfg))
  /\ attrs (fresh env cfg) !! "alpha" = Some (VFloat (cfg_alpha cfg))
  /\ attrs (fresh env cfg) !! "C" = Some (VFloat (cfg_C cfg))
  /\ attrs (fresh env cfg) !! "simulator" = Some (VSimulator env)
  /\ attrs (fresh env cfg) !! "tempurature_schedule" = None.
Proof.
  unfold fresh, __init__, np_zeros, py_floordiv.
  change (2 =? 0) with false.
  destruct (cfg_memory_size cfg <? 0);
    cbv beta iota delta [bind setattr clone ret raise blank attrs trace next_ref snd];
    repeat split; look; reflexivity.
Qed.

(** C5, at the failing inputs: on every manager the constructor builds, for
    every node and every action set, [selection] with [root=True] raises
    [TypeError] instead of returning an action: [np.random] is a module and
    the call that should draw the noise fails. *)
Theorem selection_at_root_raises (predict : nat -> list Q -> list Q)
    (puct : node -> list Q -> Q -> list npfloat) (nd : node)
    (env env' : environment) (cfg : config) :
  selection predict puct nd env true (fresh env' cfg)
  = (Raise (TypeError "'module' object is not callable"), fresh env' cfg).
Proof.
  destruct (fresh_early env' cfg) as (_ & Hm & _ & Hd & He & Ha & _).
  unfold selection, nn_policy_from_node.
  destruct (S (state_ndim nd) =? 3)%nat.
  - do 5 step. reflexivity.
  - unfold bind at 1 2. reduce. do 4 step. reflexivity.
Qed.

(** C6, at the failing inputs: on every manager the constructor builds,
    [action_choice] with a move number other than 0 raises [AttributeError]:
    it reads [self.tempurature_schedule], and the constructor binds
    [self.temperature_schedule]. *)
Theorem action_choice_reads_unbound_schedule
    (zero_temperature_choice : node -> option Q -> M Z) (nd : node)
    (env : environment) (cfg : config) (move_number : Z) :
  action_choice zero_temperature_choice nd (Some move_number) (fresh env cfg)
  = if move_number =? 0 then zero_temperature_choice nd None (fresh env cfg)
    else (Raise (AttributeError "tempurature_schedule"), fresh env cfg).
Proof.
  destruct (fresh_early env cfg) as (_ & _ & _ & _ & _ & _ & _ & _ & Ht).
  unfold action_choice, truthy_move.
  destruct (move_number =? 0); cbn [negb]; [reflexivity|].
  step. reflexivity.
Qed.

(** C10: a move number of 0 is falsy, so [action_choice(node, 0)] is the
    call [zero_temperature_choice(node)] of the branch for an absent move
    number, in every state of the manager; no attribute is read. *)
Theorem action_choice_zero_is_absent
    (zero_temperature_choice : node -> option Q -> M Z) (nd : node) (w : world) :
  action_choice zero_temperature_choice nd (Some 0) w
  = zero_temperature_choice nd None w
  /\ action_choice zero_temperature_choice nd (Some 0) w
     = action_choice zero_temperature_choice nd None w.
Proof. split; reflexivity. Qed.

(** C7, at the failing inputs: in every state of the manager, whatever
    [alpha], [epsilon] and the prior are, [selection] with [root=True] raises
    before anything is scored: the outcome is the same exception for every
    [puct], so no blended probability vector is ever produced. *)
Theorem root_noise_never_blended (predict : nat -> list Q -> list Q)
    (nd : node) (env : environment) (w : world) :
  exists e, forall puct : node -> list Q -> Q -> list npfloat,
    selection predict puct nd env true w = (Raise e, w).
Proof.
  unfold selection, nn_policy_from_node, getattr_float, np_random, bind,
    getattr, as_float, as_model, ret, raise.
  destruct (S (state_ndim nd) =? 3)%nat;
    [destruct (attrs w !! "_input_dims");
       [|eexists; intros puct; reflexivity]|];
    cbv beta iota;
    (destruct (attrs w !! "model") as [[]|];
       try solve [eexists; intros puct; reflexivity];
     cbv beta iota;
     destruct (attrs w !! "epsilon") as [[]|] eqn:He;
       try solve [eexists; intros puct; reflexivity];
     cbv beta iota; rewrite He; cbv beta iota;
     destruct (attrs w !! "alpha");
     eexists; intros puct; reflexivity).
Qed.

Lemma bind_Return {A B} (m : M A) (k : A -> M B) (w w' : world) (b : B) :
  bind m k w = (Return b, w') ->
  exists a w1, m w = (Return a, w1) /\ k a w1 = (Return b, w').
Proof.
  unfold bind. destruct (m w) as [[a|e| |] w1]; intros H; try discriminate.
  exists a, w1. split; [reflexivity | exact H].
Qed.

Lemma np_getitem_Return {A} (a : list A) (i : Z) (w w' : world) (x : A) :
  np_getitem a i w = (Return x, w') -> x ∈ a.
Proof.
  unfold np_getitem. destruct (np_index (length a) i) as [k|]; [|discriminate].
  destruct (a !! k) as [y|] eqn:E; [|discriminate].
  intros H. injection H as -> _. apply list_elem_of_lookup. exists k. exact E.
Qed.

(** Below the root the contract of C5 holds: whatever scores [puct] returns
    (infinite and NaN included), an action that [selection] returns is one
    of [env.actions]. *)
Lemma selection_below_root_is_legal (predict : nat -> list Q -> list Q)
    (puct : node -> list Q -> Q -> list npfloat) (nd : node)
    (env : environment) (w w' : world) (a : Z) :
  selection predict puct nd env false w = (Return a, w') -> a ∈ actions env.
Proof.
  unfold selection. intros H.
  apply bind_Return in H as (p & w1 & _ & H).
  apply bind_Return in H as (p' & w2 & _ & H).
  apply bind_Return in H as (c & w3 & _ & H).
  apply bind_Return in H as (scores & w4 & _ & H).
  apply bind_Return in H as (best & w5 & _ & H).
  exact (np_getitem_Return _ _ _ _ _ H).
Qed.

Lemma rows_at_cons {A} (a : list A) (i : Z) (x : A) (idx : list Z) :
  a !! Z.to_nat i = Some x -> rows_at a (i :: idx) = x :: rows_at a idx.
Proof. intros H. unfold rows_at. cbn [omap list_omap]. rewrite H. reflexivity. Qed.

(** Taking rows at indices that are all in range. *)
Lemma run_np_take {A} (a : list A) (idx : list Z) (w : world) :
  Forall (fun i => 0 <= i < Z.of_nat (length a)) idx ->
  np_take a idx w = (Return (rows_at a idx), w)
  /\ length (rows_at a idx) = length idx.
Proof.
  induction 1 as [|i idx Hi _ [IH1 IH2]]; [split; reflexivity|].
  destruct (lookup_lt_is_Some_2 a (Z.to_nat i)) as [x Hx]; [lia|].
  rewrite (rows_at_cons a i x idx Hx).
  cbn [np_take length]. unfold bind, np_getitem.
  rewrite np_index_in by lia. rewrite Hx. reduce. rewrite IH1, IH2.
  split; reflexivity.
Qed.

Lemma argmax_from_bound (l : list npfloat) :
  forall (best_i i : nat) (best : npfloat),
  (best_i < i)%nat -> (argmax_from best_i best i l < i + length l)%nat.
Proof.
  induction l as [|x l IH]; intros best_i i best H; cbn [argmax_from length].
  - lia.
  - destruct (replaces x best).
    + specialize (IH i (S i) x). lia.
    + specialize (IH best_i (S i) best). lia.
Qed.

(** Below the root, on a manager the constructor built, [selection] returns
    (and returns a legal action) as soon as the action set is not empty and
    every action indexes the score vector. *)
Lemma selection_below_root_returns (predict : nat -> list Q -> list Q)
    (puct : node -> list Q -> Q -> list npfloat) (nd : node)
    (env env' : environment) (cfg : config) :
  actions env <> [] ->
  Forall (fun a => 0 <= a < Z.of_nat (length (puct nd (predict 1%nat (state nd)) (cfg_C cfg))))
    (actions env) ->
  exists a, selection predict puct nd env false (fresh env' cfg)
            = (Return a, fresh env' cfg)
            /\ a ∈ actions env.
Proof.
  intros Hne Hin.
  destruct (fresh_early env' cfg) as (_ & Hm & _ & Hd & _ & _ & HC & _).
  destruct (run_np_take _ _ (fresh env' cfg) Hin) as [Ht Hl].
  assert (Hsel : exists a, selection predict puct nd env false (fresh env' cfg)
                           = (Return a, fresh env' cfg)).
  { unfold selection, nn_policy_from_node.
    destruct (S (state_ndim nd) =? 3)%nat.
    - do 3 step. rewrite Ht.
      destruct (rows_at _ (actions env)) as [|x scores] eqn:E.
      + destruct (actions env); [congruence | discriminate Hl].
      + cbn [np_argmax]. reduce. unfold np_getitem.
        pose proof (argmax_from_bound scores 0 1 x) as Hb.
        cbn [length] in Hl.
        rewrite np_index_in by lia. rewrite Nat2Z.id.
        destruct (lookup_lt_is_Some_2 (actions env) (argmax_from 0 x 1 scores))
          as [a Ha]; [lia|].
        rewrite Ha. eexists. reflexivity.
    - unfold bind at 1 2. reduce. do 2 step. rewrite Ht.
      destruct (rows_at _ (actions env)) as [|x scores] eqn:E.
      + destruct (actions env); [congruence | discriminate Hl].
      + cbn [np_argmax]. reduce. unfold np_getitem.
        pose proof (argmax_from_bound scores 0 1 x) as Hb.
        cbn [length] in Hl.
        rewrite np_index_in by lia. rewrite Nat2Z.id.
        destruct (lookup_lt_is_Some_2 (actions env) (argmax_from 0 x 1 scores))
          as [a Ha]; [lia|].
        rewrite Ha. eexists. reflexivity. }
  destruct Hsel as [a Ha]. exists a. split; [exact Ha|].
  exact (selection_below_root_is_legal _ _ _ _ _ _ _ Ha).
Qed.

(** ** Evaluation *)

Lemma global_MCTS (w : world) : global "MCTS" w = (Raise (NameError "MCTS"), w).
Proof. reflexivity. Qed.

(** In every state of the manager and for every tournament result,
    [evaluation] raises and binds no attribute: the live model is never
    replaced. *)
Lemma evaluation_never_promotes (wins : Z) (w : world) :
  exists e, fst (evaluation wins w) = Raise e
            /\ attrs (snd (evaluation wins w)) = attrs w.
Proof.
  unfold evaluation, log, bind, getattr, emit, raise, ret.
  destruct (attrs w !! "_logger") as [[]|];
    try solve [eexists; split; reflexivity].
  cbn [attrs].
  destruct (attrs w !! "simulator") as [[]|] eqn:Hs;
    repeat
      (cbv beta iota; cbn [attrs falsy]; try rewrite Hs;
       first
         [ solve [eexists; split; reflexivity]
         | match goal with
           | |- context [if ?b then _ else _] => destruct b
           | |- context [match ?l with [] => _ | _ :: _ => _ end] => destruct l
           end ]).
Qed.

(** C3, at the failing input: with the default threshold 0.55 and a
    tournament that the candidate would win 240 games of 400 (a fraction of
    0.6, above the threshold), [evaluation] raises [NameError] for [MCTS]
    before any game is played, and the live model is still the one the
    constructor bound, not the candidate. *)
Theorem evaluation_raises_before_the_tournament :
  let w := fresh two_actions default_config in
  Qle_bool (inject_Z 240 / inject_Z (cfg_validation_games default_config))
    (cfg_update_threshold default_config) = false
  /\ fst (evaluation 240 w) = Raise (NameError "MCTS")
  /\ attrs w !! "_next_model" = Some (VModel 0)
  /\ attrs w !! "model" = Some (VModel 1)
  /\ attrs (snd (evaluation 240 w)) !! "model" = Some (VModel 1).
Proof. vm_compute. repeat split. Qed.

(** ** The training loop *)

(** The indices of a draw: as many as asked for, each in [[0, high)]. *)
Lemma drawn_in_range (high size : Z) (raw : nat -> Z) :
  0 < high ->
  length (drawn high size raw) = Z.to_nat size
  /\ Forall (fun i => 0 <= i < high) (drawn high size raw).
Proof.
  intros H. unfold drawn. split.
  - rewrite length_map. apply length_seq.
  - apply Forall_forall. intros i Hi.
    apply list_elem_of_In, in_map_iff in Hi as (k & <- & _).
    apply Z.mod_pos_bound. exact H.
Qed.

(** Every batch of indices of the live range, repeats included, is the draw
    of some output of the generator: the draw is with replacement. *)
Lemma drawn_any (high : Z) (idx : list Z) :
  Forall (fun i => 0 <= i < high) idx ->
  drawn high (Z.of_nat (length idx)) (fun k => nth k idx 0) = idx.
Proof.
  intros H. unfold drawn. rewrite Nat2Z.id.
  apply list_eq. intros k. rewrite list_lookup_fmap.
  destruct (idx !! k) as [i|] eqn:E.
  - rewrite (lookup_seq_lt _ _ _ (lookup_lt_Some _ _ _ E)). cbn.
    rewrite (nth_lookup_Some _ _ _ _ E).
    rewrite Z.mod_small; [reflexivity|].
    exact (proj1 (Forall_lookup _ _) H k i E).
  - rewrite lookup_seq_ge; [reflexivity|]. apply lookup_ge_None. exact E.
Qed.

Lemma Forall_in_range_le (high len : Z) (idx : list Z) :
  high <= len ->
  Forall (fun i => 0 <= i < high) idx -> Forall (fun i => 0 <= i < len) idx.
Proof.
  intros Hle H. eapply Forall_impl; [exact H|]. intros i Hi. cbn in Hi. lia.
Qed.

(** A request for [size >= 0] indices below a positive [high] is answered. *)
Lemma run_randint (high size : Z) (raw : nat -> Z) (w : world) :
  0 < high -> 0 <= size ->
  randint high size raw w
  = (Return (drawn high size raw),
     World (attrs w) (trace w ++ [EvRandint high size]) (next_ref w)).
Proof.
  intros Hh Hs. unfold randint. step.
  destruct (Z.eqb_spec size 0) as [->|Hne]; [reflexivity|].
  destruct (high <=? 0) eqn:E1; [lia|].
  destruct (size <? 0) eqn:E2; [lia|]. reflexivity.
Qed.

(** One turn of the loop body on a manager whose loop can run: one request
    to the generator for [b] indices below [min c K], one [fit] on the rows
    at those indices, and, when the model answers, the step counter and the
    checkpoint. *)
Lemma train_step_run (t : tick) (w : world) (c K : Z)
    (ss ps : list (list Q)) (rs : list Q) (cand : nat) (s cp itv b : Z) :
  trainer w c K ss ps rs cand s cp itv b ->
  train_step (VInt b) t w =
    let idx := drawn (Z.min c K) b (entropy t) in
    let t1 := (trace w ++ [EvRandint (Z.min c K) b])
                ++ [EvFit cand (rows_at ss idx) (rows_at ps idx) (rows_at rs idx) s] in
    match fit_answer t with
    | Throws e => (Raise e, World (attrs w) t1 (next_ref w))
    | Answers h =>
        let a1 := <["_training_step" := VInt (s + 1)]> (attrs w) in
        let t2 := t1 ++ [EvLog "NNPolicyManager|Network" INFO (History h)] in
        if s + 1 =? cp then
          let a2 := <["checkpoint" := VInt (cp + itv)]> a1 in
          let t3 := t2 ++ [EvSave cand (cp + itv)] in
          match save_answer t with
          | Throws e => (Raise e, World a2 t3 (next_ref w))
          | Answers _ => (Return tt, World a2 t3 (next_ref w))
          end
        else (Return tt, World a1 t2 (next_ref w))
    end.
Proof.
  intros [Hlg Hc HK [shs Hss] [shp Hps] Hrs Hmod Hs Hcp Hitv _ _ _ _ Hlive Hb
            Lss Lps Lrs].
  destruct w as [a tr r]; cbn [attrs trace next_ref] in *.
  destruct (drawn_in_range (Z.min c K) b (entropy t) Hlive) as [_ Hin].
  unfold train_step. do 2 step.
  rewrite run_randint by assumption. reduce.
  step. rewrite (proj1 (run_np_take ss _ _ (Forall_in_range_le _ _ _ Lss Hin))).
  step. rewrite (proj1 (run_np_take ps _ _ (Forall_in_range_le _ _ _ Lps Hin))).
  step. rewrite (proj1 (run_np_take rs _ _ (Forall_in_range_le _ _ _ Lrs Hin))).
  do 2 step. unfold fit. step.
  destruct (fit_answer t) as [h|e]; reduce; [|reflexivity].
  do 5 step.
  destruct (s + 1 =? cp); [|reflexivity].
  do 5 step. unfold save. step.
  destruct (save_answer t) as [[]|e]; reflexivity.
Qed.

(** The manager after a turn that did not raise is again one whose loop can
    run, one step further. *)
Lemma trainer_step (w : world) (c K : Z) (ss ps : list (list Q)) (rs : list Q)
    (cand : nat) (s cp itv b : Z) (tr : list event) :
  trainer w c K ss ps rs cand s cp itv b ->
  trainer (World (<["_training_step" := VInt (s + 1)]> (attrs w)) tr (next_ref w))
    c K ss ps rs cand (s + 1) cp itv b.
Proof. intros []. split; look; assumption || reflexivity. Qed.

Lemma trainer_checkpoint (w : world) (c K : Z) (ss ps : list (list Q))
    (rs : list Q) (cand : nat) (s cp itv b : Z) (tr : list event) :
  trainer w c K ss ps rs cand s cp itv b ->
  trainer (World (<["checkpoint" := VInt (cp + itv)]>
                    (<["_training_step" := VInt (s + 1)]> (attrs w)))
                 tr (next_ref w))
    c K ss ps rs cand (s + 1) (cp + itv) itv b.
Proof. intros []. split; look; assumption || reflexivity. Qed.

Lemma trainer_trace (w : world) (c K : Z) (ss ps : list (list Q)) (rs : list Q)
    (cand : nat) (s cp itv b : Z) (tr : list event) :
  trainer w c K ss ps rs cand s cp itv b ->
  trainer (World (attrs w) tr (next_ref w)) c K ss ps rs cand s cp itv b.
Proof. intros []. split; assumption. Qed.

Lemma trained_trainer :
  trainer trained 6 10 trained_states trained_policies trained_rewards
    0 0 1 1000 4.
Proof.
  split; try (vm_compute; reflexivity); try (vm_compute; discriminate);
    eexists; vm_compute; reflexivity.
Qed.

Lemma run_getattr_number (name : string) (z : Z) (w : world) :
  attrs w !! name = Some (VInt z) -> getattr_float name w = (Return (inject_Z z), w).
Proof.
  intros H. unfold getattr_float, bind. rewrite (run_getattr _ _ _ H). reflexivity.
Qed.

(** The test of the loop: a turn in which the flag has been cleared ends the
    loop; otherwise the body runs and the loop goes on. *)
Lemma train_loop_turn (t : tick) (rest : list tick) (w : world) (c K : Z)
    (ss ps : list (list Q)) (rs : list Q) (cand : nat) (s cp itv b : Z) :
  trainer w c K ss ps rs cand s cp itv b ->
  train_loop (VInt b) (t :: rest) w =
    if stop_requested t then
      (Return tt,
       World (<["_optimize_event" := VEvent false]> (attrs w)) (trace w) (next_ref w))
    else (train_step (VInt b) t;;; train_loop (VInt b) rest) w.
Proof.
  intros Hv. pose proof (tr_optimize _ _ _ _ _ _ _ _ _ _ _ Hv) as Ho.
  cbn [train_loop]. unfold bind at 1. unfold cleared_elsewhere. rewrite Ho.
  destruct (stop_requested t).
  - step. reflexivity.
  - step. reflexivity.
Qed.

(** When the collaborator's answers make a [fit] or a [save] raise, the
    loop raises that exception, and the loggers are still bound. *)
Lemma train_loop_failure (schedule : list tick) :
  forall (w : world) (c K : Z) (ss ps : list (list Q)) (rs : list Q)
         (cand : nat) (s cp itv b : Z) (e : exn),
  trainer w c K ss ps rs cand s cp itv b ->
  first_failure s cp itv schedule = Some e ->
  exists w', train_loop (VInt b) schedule w = (Raise e, w')
             /\ attrs w' !! "_nn_logger" = Some (VLogger "NNPolicyManager|Network").
Proof.
  induction schedule as [|t rest IH];
    intros w c K ss ps rs cand s cp itv b e Hv Hf; [discriminate Hf|].
  rewrite (train_loop_turn t rest w _ _ _ _ _ _ _ _ _ _ Hv).
  cbn [first_failure] in Hf.
  destruct (stop_requested t); [discriminate Hf|].
  unfold bind. rewrite (train_step_run t w _ _ _ _ _ _ _ _ _ _ Hv). cbv zeta.
  pose proof (tr_logger _ _ _ _ _ _ _ _ _ _ _ Hv) as Hlg.
  destruct (fit_answer t) as [h|e0].
  - destruct (s + 1 =? cp).
    + destruct (save_answer t) as [[]|e0].
      * eapply IH; [|exact Hf]. apply trainer_checkpoint. exact Hv.
      * injection Hf as ->. eexists. split; [reflexivity|]. look. exact Hlg.
    + eapply IH; [|exact Hf]. apply trainer_step. exact Hv.
  - injection Hf as ->. eexists. split; [reflexivity|]. exact Hlg.
Qed.


(** C8: on a manager whose loop can run, a turn of the loop in which the
    optimize flag is still set runs the loop body, and a turn in which it
    has been cleared ends the loop; the body asks the generator for
    [batch_size] indices below [min(_replay_index, replay_maxlen)] (each
    index an independent draw reduced into that range), gathers the rows of
    the three replay arrays at those indices, and submits them in one [fit]
    call on the candidate model: no other draw or [fit] happens in the
    turn. *)
Theorem training_turn_fits_one_random_batch (t : tick) (rest : list tick)
    (w : world) (c K : Z) (ss ps : list (list Q)) (rs : list Q) (cand : nat)
    (s cp itv b : Z) :
  trainer w c K ss ps rs cand s cp itv b ->
  let high := Z.min c K in
  let idx := drawn high b (entropy t) in
  train_loop (VInt b) (t :: rest) w
  = (if stop_requested t then
       (Return tt,
        World (<["_optimize_event" := VEvent false]> (attrs w)) (trace w) (next_ref w))
     else (train_step (VInt b) t;;; train_loop (VInt b) rest) w)
  /\ length idx = Z.to_nat b
  /\ Forall (fun i => 0 <= i < high) idx
  /\ length (rows_at ss idx) = Z.to_nat b
  /\ length (rows_at ps idx) = Z.to_nat b
  /\ length (rows_at rs idx) = Z.to_nat b
  /\ exists tail,
       trace (snd (train_step (VInt b) t w))
       = trace w
         ++ [EvRandint high b;
             EvFit cand (rows_at ss idx) (rows_at ps idx) (rows_at rs idx) s]
         ++ tail
       /\ forallb (fun ev => negb (is_request ev)) tail = true.
Proof.
  intros Hv high idx.
  destruct (drawn_in_range high b (entropy t) (tr_live _ _ _ _ _ _ _ _ _ _ _ Hv))
    as [Hlen Hin]. fold idx in Hlen, Hin.
  split; [exact (train_loop_turn t rest w _ _ _ _ _ _ _ _ _ _ Hv)|].
  split; [exact Hlen|]. split; [exact Hin|].
  rewrite <- Hlen.
  split; [apply (run_np_take ss idx w),
            (Forall_in_range_le _ _ _ (tr_len_states _ _ _ _ _ _ _ _ _ _ _ Hv) Hin)|].
  split; [apply (run_np_take ps idx w),
            (Forall_in_range_le _ _ _ (tr_len_policies _ _ _ _ _ _ _ _ _ _ _ Hv) Hin)|].
  split; [apply (run_np_take rs idx w),
            (Forall_in_range_le _ _ _ (tr_len_rewards _ _ _ _ _ _ _ _ _ _ _ Hv) Hin)|].
  rewrite (train_step_run t w _ _ _ _ _ _ _ _ _ _ Hv). cbv zeta. fold high idx.
  destruct (fit_answer t) as [h|e]; [destruct (s + 1 =? cp);
    [destruct (save_answer t) as [[]|e]|]|]; cbn [snd trace];
    rewrite <- ?app_assoc; cbn [app];
    eexists; (split; [reflexivity | reflexivity]) ||
    (exists []; split; [reflexivity | reflexivity]).
Qed.

Lemma training_turn_fits_one_random_batch_witness :
  exists tail,
    trace (snd (train_step (VInt 4) quiet_tick trained))
    = trace trained
      ++ [EvRandint 6 4;
          EvFit 0 (rows_at trained_states [0; 1; 2; 3])
                  (rows_at trained_policies [0; 1; 2; 3])
                  (rows_at trained_rewards [0; 1; 2; 3]) 0]
      ++ tail
    /\ forallb (fun ev => negb (is_request ev)) tail = true.
Proof.
  exact (proj2 (proj2 (proj2 (proj2 (proj2 (proj2
    (training_turn_fits_one_random_batch quiet_tick [] trained
       _ _ _ _ _ _ _ _ _ _ trained_trainer))))))).
Defined.

(** ** Further properties of the code *)

(** On a manager as the constructor leaves it the training thread cannot
    train: [replay_ready] is unbound, the [AttributeError] is caught by the
    loop's own handler, logged as a crash, and the call ends in
    [sys.exit(0)], whatever the collaborators would answer. *)
Lemma fresh_training_crashes (schedule : list tick) :
  fst (_train_process schedule (fresh two_actions default_config))
  = Raise (SystemExit 0)
  /\ last (trace (snd (_train_process schedule (fresh two_actions default_config))))
     = Some (EvLog "NNPolicyManager|Network" ERROR
               (Crashed (AttributeError "replay_ready"))).
Proof. split; reflexivity. Qed.

(** With a schedule bound under the name that [action_choice] reads, the
    temperature is the value at the greatest key below 5, whatever the move
    number: at move 2 the threshold 3 is taken, and a schedule with no key
    below 5 raises [IndexError] instead of falling back to a default. *)
Lemma action_choice_filters_by_constant
    (zero_temperature_choice : node -> option Q -> M Z) (nd : node) (w : world) :
  action_choice zero_temperature_choice nd (Some 2)
    (attach "tempurature_schedule" (VSortedDict three_stage_schedule) w)
  = zero_temperature_choice nd (Some (1 # 2))
      (attach "tempurature_schedule" (VSortedDict three_stage_schedule) w)
  /\ action_choice zero_temperature_choice nd (Some 2)
       (attach "tempurature_schedule" (VSortedDict late_schedule) w)
     = (Raise IndexError,
        attach "tempurature_schedule" (VSortedDict late_schedule) w).
Proof.
  unfold action_choice, attach. cbn [truthy_move Z.eqb negb].
  split; step; reflexivity.
Qed.

Lemma Qsum_blend (eps : Q) (prior : list Q) :
  forall noise : list Q,
  length prior = length noise ->
  (Qsum (blend eps prior noise) == (1 - eps) * Qsum prior + eps * Qsum noise)%Q.
Proof.
  induction prior as [|p prior IH]; intros [|x noise] Hlen;
    try discriminate Hlen.
  - cbn. ring.
  - injection Hlen as Hlen. specialize (IH noise Hlen).
    unfold blend in *. cbn [map zip_with Qsum fold_right] in *.
    fold (Qsum prior). fold (Qsum noise).
    fold (Qsum (zip_with Qplus (map (Qmult (1 - eps)) prior) (map (Qmult eps) noise))).
    rewrite IH. ring.
Qed.

(** The blend that [selection] writes, on rationals: a prior and a noise
    vector of the same length that each sum to 1 blend into a vector that
    sums to 1, for every [epsilon]. *)
Lemma blend_sums_to_one (eps : Q) (prior noise : list Q) :
  length prior = length noise ->
  (Qsum prior == 1)%Q -> (Qsum noise == 1)%Q ->
  (Qsum (blend eps prior noise) == 1)%Q.
Proof.
  intros Hlen Hp Hn. rewrite (Qsum_blend eps prior noise Hlen), Hp, Hn. ring.
Qed.

Lemma blend_sums_to_one_witness :
  (Qsum (blend (1 # 4) [1 # 2; 1 # 2] [1 # 3; 2 # 3]) == 1)%Q.
Proof.
  apply (blend_sums_to_one (1 # 4) [1 # 2; 1 # 2] [1 # 3; 2 # 3]);
    reflexivity.
Defined.

Lemma selection_below_root_returns_witness :
  exists a,
    selection (fun _ st => st) wild_scores (fst (sample 1)) two_actions false
      (fresh two_actions default_config)
    = (Return a, fresh two_actions default_config)
    /\ a ∈ actions two_actions.
Proof.
  apply (selection_below_root_returns (fun _ st => st) wild_scores
           (fst (sample 1)) two_actions two_actions default_config).
  - discriminate.
  - repeat (constructor; [cbn; lia|]). constructor.
Defined.

(** ** The constructor *)

(** The constructor raises [ValueError] exactly when [memory_size] is
    negative, leaving an object with the attributes bound until then; when
    it returns, the attributes of the manager are exactly
    [constructor_names], and none of the names of [never_bound] is among
    them. *)
Theorem constructor_binds (model : nat) (input_dims : Z) (env : environment)
    (cfg : config) :
  let r := __init__ model input_dims env cfg blank in
  (if cfg_memory_size cfg <? 0 then
     fst r = Raise (ValueError "negative dimensions are not allowed")
     /\ dom (attrs (snd r)) = early_names
   else
     fst r = Return tt /\ dom (attrs (snd r)) = constructor_names)
  /\ forallb (fun name => bool_decide (name ∉ constructor_names)) never_bound
     = true.
Proof.
  split; [|vm_compute; reflexivity].
  unfold __init__, np_zeros, py_floordiv.
  change (2 =? 0) with false.
  destruct (cfg_memory_size cfg <? 0);
    cbv beta iota delta [bind setattr clone ret raise blank attrs trace next_ref snd fst];
    (split; [reflexivity|]);
    rewrite !dom_insert_L, dom_empty_L;
    apply (bool_decide_unpack _); vm_compute; exact I.
Qed.

(** ** More on the replay buffer *)

Lemma ready_records_app (a b : list event) :
  ready_records (a ++ b) = (ready_records a + ready_records b)%nat.
Proof. unfold ready_records. rewrite List.filter_app. apply length_app. Qed.

(** The records that one [update] adds to the log, for a node whose state
    has the shape of a slot. *)
Lemma update_trace (nd : node) (reward : Q) (w : world) (shape : list nat)
    (c m n : Z) (ss ps : list (list Q)) (rs : list Q) (ready : option bool) :
  buffer w shape c m n ss ps rs ready ->
  0 <= c -> 0 < m ->
  m <= Z.of_nat (length ss) -> m <= Z.of_nat (length ps) ->
  m <= Z.of_nat (length rs) ->
  fits shape nd = true ->
  trace (snd (update nd reward w))
  = (trace w ++ [EvLog "NNPolicyManager" INFO (Text "Adding state to replay table")])
    ++ match ready with
       | Some false =>
           if c + 1 >? m
           then [EvLog "NNPolicyManager" INFO (Text "Replay Table Ready")]
           else []
       | _ => []
       end.
Proof.
  intros [Hlg Hc Hm Hn Hss Hps Hrs Hr] Hc0 Hm0 Lss Lps Lrs Hfit.
  rewrite (update_run nd reward w _ shape c m n ss ps rs
             Hlg Hc Hm Hn Hss Hps Hrs Hc0 Hm0 Lss Lps Lrs).
  cbv zeta. rewrite (fits_row shape nd Hfit), Hr.
  destruct ready as [[|]|]; cbn [fmap option_fmap option_map snd trace];
    rewrite ?app_nil_r; try reflexivity.
  destruct (c + 1 >? m); cbn [snd trace]; rewrite ?app_nil_r; reflexivity.
Qed.

(** A run of [update] calls with states of the shape of a slot never
    touches a slot at or above the modulus, and logs readiness at most
    once: when the cursor first exceeds the threshold with the event bound
    and unset. *)
Lemma updates_history (calls : list (node * Q)) :
  forall (w : world) (shape : list nat) (c m n : Z) (ss ps : list (list Q))
         (rs : list Q) (ready : option bool),
  buffer w shape c m n ss ps rs ready ->
  0 <= c -> 0 < m ->
  m <= Z.of_nat (length ss) -> m <= Z.of_nat (length ps) ->
  m <= Z.of_nat (length rs) ->
  (ready = Some false -> c <= m) ->
  forallb (fun call => fits shape (fst call)) calls = true ->
  exists ss' ps' rs',
    buffer (updates calls w) shape (c + Z.of_nat (length calls)) m n ss' ps' rs'
      (ready_after c m ready (length calls))
    /\ (length ss' = length ss /\ length ps' = length ps
        /\ length rs' = length rs)
    /\ (forall j : nat, (Z.to_nat m <= j)%nat ->
          ss' !! j = ss !! j /\ ps' !! j = ps !! j /\ rs' !! j = rs !! j)
    /\ ready_records (trace (updates calls w))
       = (ready_records (trace w)
          + match ready with
            | Some false => if (m <? c + Z.of_nat (length calls))%Z then 1 else 0
            | _ => 0
            end)%nat.
Proof.
  induction calls as [|[nd reward] calls IH];
    intros w shape c m n ss ps rs ready Hb Hc Hm Lss Lps Lrs Hready Hfit.
  - cbn [updates length ready_after]. exists ss, ps, rs.
    rewrite Z.add_0_r. split; [exact Hb|]. split; [auto|]. split; [auto|].
    destruct ready as [[|]|]; try lia.
    destruct (m <? c) eqn:E; [specialize (Hready eq_refl); lia | lia].
  - cbn [updates length ready_after].
    cbn [forallb fst] in Hfit. apply andb_prop in Hfit as [Hnd Hfit].
    destruct (update_buffer nd reward w shape c m n ss ps rs ready
                Hb Hc Hm Lss Lps Lrs Hnd) as [Hb' _].
    pose proof (update_trace nd reward w shape c m n ss ps rs ready
                  Hb Hc Hm Lss Lps Lrs Hnd) as Htr.
    assert (Hi : 0 <= c mod m < m) by (apply Z.mod_pos_bound; lia).
    destruct (IH _ _ _ _ _ _ _ _ _ Hb')
      as (ss' & ps' & rs' & Hb'' & (L1 & L2 & L3) & Hup & Hcount);
      rewrite ?length_insert; try lia; try exact Hfit.
    { intros E. destruct ready as [[|]|]; cbn [ready_next] in E; try discriminate.
      injection E as E. lia. }
    exists ss', ps', rs'.
    replace (c + Z.of_nat (S (length calls)))
      with (c + 1 + Z.of_nat (length calls)) by lia.
    split; [exact Hb''|].
    split; [rewrite L1, L2, L3, !length_insert; auto|]. split.
    + intros j Hj. destruct (Hup j Hj) as (H1 & H2 & H3).
      rewrite H1, H2, H3.
      rewrite !list_lookup_insert_ne by lia. auto.
    + rewrite Hcount, Htr, !ready_records_app.
      destruct ready as [[|]|]; cbn [ready_next]; cbn; try lia.
      rewrite Z.gtb_ltb.
      destruct (Z.ltb_spec m (c + 1)); cbn;
        destruct (Z.ltb_spec m (c + 1 + Z.of_nat (length calls))); lia.
Qed.

(** One [update], whatever the node: the view persists, the arrays keep
    their lengths, and no slot at or above the modulus is touched. *)
Lemma update_upper (nd : node) (reward : Q) (w : world) (shape : list nat)
    (c m n : Z) (ss ps : list (list Q)) (rs : list Q) (ready : option bool) :
  buffer w shape c m n ss ps rs ready ->
  0 <= c -> 0 < m ->
  m <= Z.of_nat (length ss) -> m <= Z.of_nat (length ps) ->
  m <= Z.of_nat (length rs) ->
  exists c' ss' ps' rs' ready',
    buffer (snd (update nd reward w)) shape c' m n ss' ps' rs' ready'
    /\ 0 <= c'
    /\ (length ss' = length ss /\ length ps' = length ps
        /\ length rs' = length rs)
    /\ (forall j : nat, (Z.to_nat m <= j)%nat ->
          ss' !! j = ss !! j /\ ps' !! j = ps !! j /\ rs' !! j = rs !! j).
Proof.
  intros Hb Hc Hm Lss Lps Lrs.
  assert (Hi : 0 <= c mod m < m) by (apply Z.mod_pos_bound; lia).
  destruct (broadcast_row shape (state_dims nd) (state nd)) as [row|] eqn:Hrow.
  - destruct (update_buffer_row nd reward w shape c m n ss ps rs ready row
                Hb Hc Hm Lss Lps Lrs Hrow) as [Hb' _].
    eexists _, _, _, _, _. split; [exact Hb'|]. split; [lia|].
    split; [rewrite !length_insert; auto|].
    intros j Hj. rewrite !list_lookup_insert_ne by lia. auto.
  - rewrite (update_refused nd reward w shape c m n ss ps rs ready
               Hb Hc Hm Lss Lps Lrs Hrow).
    cbn [snd]. exists c, ss, ps, rs, ready.
    split; [apply buffer_trace; exact Hb|]. auto.
Qed.

Lemma updates_upper (calls : list (node * Q)) :
  forall (w : world) (shape : list nat) (c m n : Z) (ss ps : list (list Q))
         (rs : list Q) (ready : option bool),
  buffer w shape c m n ss ps rs ready ->
  0 <= c -> 0 < m ->
  m <= Z.of_nat (length ss) -> m <= Z.of_nat (length ps) ->
  m <= Z.of_nat (length rs) ->
  exists c' ss' ps' rs' ready',
    buffer (updates calls w) shape c' m n ss' ps' rs' ready'
    /\ 0 <= c'
    /\ (length ss' = length ss /\ length ps' = length ps
        /\ length rs' = length rs)
    /\ (forall j : nat, (Z.to_nat m <= j)%nat ->
          ss' !! j = ss !! j /\ ps' !! j = ps !! j /\ rs' !! j = rs !! j).
Proof.
  induction calls as [|[nd reward] calls IH];
    intros w shape c m n ss ps rs ready Hb Hc Hm Lss Lps Lrs.
  - cbn [updates]. exists c, ss, ps, rs, ready.
    split; [exact Hb|]. split; [exact Hc|]. split; auto.
  - cbn [updates].
    destruct (update_upper nd reward w shape c m n ss ps rs ready
                Hb Hc Hm Lss Lps Lrs)
      as (c1 & ss1 & ps1 & rs1 & ready1 & Hb1 & Hc1 & (L1 & L2 & L3) & Hup1).
    destruct (IH _ _ _ _ _ _ _ _ _ Hb1)
      as (c2 & ss2 & ps2 & rs2 & ready2 & Hb2 & Hc2 & (L4 & L5 & L6) & Hup2);
      try lia.
    exists c2, ss2, ps2, rs2, ready2. split; [exact Hb2|].
    split; [exact Hc2|].
    split; [rewrite L4, L5, L6; auto|].
    intros j Hj. destruct (Hup1 j Hj) as (H1 & H2 & H3).
    destruct (Hup2 j Hj) as (H4 & H5 & H6).
    rewrite H4, H5, H6. auto.
Qed.

Lemma constructed_buffer (env : environment) (cfg : config) (ready : option bool) :
  0 <= cfg_memory_size cfg ->
  buffer (constructed env cfg ready) (state_shape env) 0 (cfg_memory_size cfg / 2)
    (Z.of_nat (action_space env))
    (replicate (Z.to_nat (cfg_memory_size cfg))
       (replicate (product (state_shape env)) 0%Q))
    (replicate (Z.to_nat (cfg_memory_size cfg))
       (replicate (action_space env) 0%Q))
    (replicate (Z.to_nat (cfg_memory_size cfg)) 0%Q) ready.
Proof.
  intros HK. destruct (fresh_attrs env cfg HK) as [Hb _].
  destruct ready as [flag|]; [|exact Hb].
  exact (attach_ready _ _ _ _ _ _ _ _ _ flag Hb).
Qed.

(** Whatever calls of [update] are made on a manager constructed with
    [memory_size >= 2], with or without a readiness event, and whatever the
    nodes are, the slots from [memory_size // 2] on still hold the zeros of
    the constructor: half of the replay table is never written. *)
Theorem upper_slots_never_written (env : environment) (cfg : config)
    (ready : option bool) (calls : list (node * Q)) :
  2 <= cfg_memory_size cfg ->
  exists ss ps rs,
    attrs (updates calls (constructed env cfg ready)) !! "replay_states"
    = Some (VArray2 (state_shape env) ss)
    /\ attrs (updates calls (constructed env cfg ready)) !! "replay_policies"
       = Some (VArray2 [action_space env] ps)
    /\ attrs (updates calls (constructed env cfg ready)) !! "replay_rewards"
       = Some (VArray1 rs)
    /\ forall j : nat,
         (Z.to_nat (cfg_memory_size cfg / 2) <= j < Z.to_nat (cfg_memory_size cfg))%nat ->
         ss !! j = Some (replicate (product (state_shape env)) 0%Q)
         /\ ps !! j = Some (replicate (action_space env) 0%Q)
         /\ rs !! j = Some 0%Q.
Proof.
  intros HK.
  pose proof (constructed_buffer env cfg ready) as Hb.
  assert (Hm : 0 < cfg_memory_size cfg / 2) by (apply Z.div_str_pos; lia).
  assert (Hle : cfg_memory_size cfg / 2 <= cfg_memory_size cfg)
    by (apply Z.lt_le_incl, Z.div_lt; lia).
  destruct (updates_upper calls _ _ _ _ _ _ _ _ ready (Hb ltac:(lia)))
    as (c' & ss & ps & rs & ready' & Hb' & _ & _ & Hup);
    rewrite ?length_replicate; try lia.
  pose proof (buf_policies _ _ _ _ _ _ _ _ _ Hb') as Hps.
  rewrite Nat2Z.id in Hps.
  exists ss, ps, rs.
  split; [exact (buf_states _ _ _ _ _ _ _ _ _ Hb')|].
  split; [exact Hps|].
  split; [exact (buf_rewards _ _ _ _ _ _ _ _ _ Hb')|].
  intros j Hj. destruct (Hup j) as (H1 & H2 & H3); [lia|].
  rewrite H1, H2, H3.
  repeat split; apply lookup_replicate_2; lia.
Qed.

Lemma upper_slots_never_written_witness :
  exists ss ps rs,
    attrs (updates (samples 23) (constructed two_actions default_config (Some false)))
      !! "replay_states" = Some (VArray2 (state_shape two_actions) ss)
    /\ attrs (updates (samples 23) (constructed two_actions default_config (Some false)))
         !! "replay_policies" = Some (VArray2 [action_space two_actions] ps)
    /\ attrs (updates (samples 23) (constructed two_actions default_config (Some false)))
         !! "replay_rewards" = Some (VArray1 rs)
    /\ forall j : nat,
         (Z.to_nat (cfg_memory_size default_config / 2) <= j
          < Z.to_nat (cfg_memory_size default_config))%nat ->
         ss !! j = Some (replicate (product (state_shape two_actions)) 0%Q)
         /\ ps !! j = Some (replicate (action_space two_actions) 0%Q)
         /\ rs !! j = Some 0%Q.
Proof.
  apply (upper_slots_never_written two_actions default_config (Some false) (samples 23)).
  cbn. lia.
Defined.

(** A state that numpy cannot broadcast to a state slot is refused: on a
    manager constructed with [memory_size >= 2], after whatever calls of
    [update], such a call logs its first record and raises [ValueError];
    no attribute has changed, so nothing is stored and the cursor has not
    moved. *)
Theorem update_refuses_misshaped_state (env : environment) (cfg : config)
    (ready : option bool) (previous : list (node * Q)) (nd : node) (reward : Q) :
  2 <= cfg_memory_size cfg ->
  broadcast_row (state_shape env) (state_dims nd) (state nd) = None ->
  let w := updates previous (constructed env cfg ready) in
  update nd reward w
  = (Raise (ValueError "could not broadcast input array"),
     World (attrs w)
       (trace w ++ [EvLog "NNPolicyManager" INFO (Text "Adding state to replay table")])
       (next_ref w)).
Proof.
  intros HK Hrow w.
  pose proof (constructed_buffer env cfg ready) as Hb.
  assert (Hm : 0 < cfg_memory_size cfg / 2) by (apply Z.div_str_pos; lia).
  assert (Hle : cfg_memory_size cfg / 2 <= cfg_memory_size cfg)
    by (apply Z.lt_le_incl, Z.div_lt; lia).
  destruct (updates_upper previous _ _ _ _ _ _ _ _ ready (Hb ltac:(lia)))
    as (c' & ss & ps & rs & ready' & Hb' & Hc' & (L1 & L2 & L3) & _);
    rewrite ?length_replicate; try lia.
  rewrite length_replicate in L1. rewrite length_replicate in L2.
  rewrite length_replicate in L3.
  apply (update_refused nd reward w _ c' _ _ ss ps rs ready' Hb'); try lia.
  exact Hrow.
Qed.

Lemma update_refuses_misshaped_state_witness :
  fst (update (Node [1; 2]%Q [2%nat] (fun _ => 0%Q)) 1%Q
         (updates (samples 3) (constructed two_actions default_config (Some false))))
  = Raise (ValueError "could not broadcast input array")
  /\ attrs (snd (update (Node [1; 2]%Q [2%nat] (fun _ => 0%Q)) 1%Q
                   (updates (samples 3)
                      (constructed two_actions default_config (Some false)))))
     = attrs (updates (samples 3) (constructed two_actions default_config (Some false))).
Proof.
  assert (H : 2 <= cfg_memory_size default_config) by (cbn; lia).
  pose proof (update_refuses_misshaped_state two_actions default_config (Some false)
                (samples 3) (Node [1; 2]%Q [2%nat] (fun _ => 0%Q)) 1%Q H eq_refl)
    as E.
  cbv zeta in E. rewrite E. split; reflexivity.
Defined.

(** On a manager with its readiness event bound and unset and its cursor at
    0, a run of [n] calls of [update] with nodes whose state has the shape
    of a state slot logs "Replay Table Ready" once if [n] exceeds the
    threshold M and never otherwise: readiness is announced exactly once,
    however many calls follow. *)
Theorem readiness_is_logged_once (w : world) (shape : list nat) (M n : Z)
    (ss ps : list (list Q)) (rs : list Q) (calls : list (node * Q)) :
  buffer w shape 0 M n ss ps rs (Some false) ->
  0 < M ->
  M <= Z.of_nat (length ss) -> M <= Z.of_nat (length ps) ->
  M <= Z.of_nat (length rs) ->
  forallb (fun call => fits shape (fst call)) calls = true ->
  ready_records (trace (updates calls w))
  = (ready_records (trace w)
     + if (M <? Z.of_nat (length calls))%Z then 1 else 0)%nat.
Proof.
  intros Hb HM Lss Lps Lrs Hfit.
  destruct (updates_history calls w shape 0 M n ss ps rs (Some false) Hb)
    as (_ & _ & _ & _ & _ & _ & Hcount); try lia; try exact Hfit.
  rewrite Hcount, Z.add_0_l. reflexivity.
Qed.

Lemma readiness_is_logged_once_witness :
  ready_records
    (trace (updates (samples 40) (constructed two_actions default_config (Some false))))
  = (ready_records (trace (constructed two_actions default_config (Some false)))
     + if (5 <? Z.of_nat (length (samples 40)))%Z then 1 else 0)%nat.
Proof.
  assert (H : 0 <= cfg_memory_size default_config) by (cbn; lia).
  refine (readiness_is_logged_once _ _ 5 _ _ _ _ (samples 40)
            (constructed_buffer two_actions default_config (Some false) H) _ _ _ _ _);
    rewrite ?length_replicate; try reflexivity; cbn; lia.
Defined.

(** With [memory_size] 0 or 1 the modulus of [update] is 0: on such a
    manager every call of [update] raises [ZeroDivisionError] and no
    attribute changes, so nothing is ever stored. *)
Lemma updates_zero_modulus (calls : list (node * Q)) :
  forall (w : world) (lg : string) (c : Z),
  attrs w !! "_logger" = Some (VLogger lg) ->
  attrs w !! "_replay_index" = Some (VInt c) ->
  attrs w !! "min_train_capacity" = Some (VInt 0) ->
  attrs (updates calls w) = attrs w
  /\ outcomes calls w = replicate (length calls) (Raise ZeroDivisionError).
Proof.
  induction calls as [|[nd reward] calls IH]; intros w lg c Hlg Hc Hm;
    [split; reflexivity|].
  assert (Hu : update nd reward w
               = (Raise ZeroDivisionError,
                  World (attrs w)
                    (trace w ++ [EvLog lg INFO (Text "Adding state to replay table")])
                    (next_ref w))).
  { unfold update. do 3 step. reflexivity. }
  cbn [updates outcomes length replicate]. rewrite Hu. cbn [fst snd].
  destruct (IH (World (attrs w)
                  (trace w ++ [EvLog lg INFO (Text "Adding state to replay table")])
                  (next_ref w)) lg c Hlg Hc Hm) as [Ha Ho].
  rewrite Ha, Ho. split; reflexivity.
Qed.

Theorem small_buffer_never_stores (env : environment) (cfg : config)
    (ready : option bool) (calls : list (node * Q)) :
  0 <= cfg_memory_size cfg < 2 ->
  attrs (updates calls (constructed env cfg ready))
  = attrs (constructed env cfg ready)
  /\ outcomes calls (constructed env cfg ready)
     = replicate (length calls) (Raise ZeroDivisionError).
Proof.
  intros HK.
  destruct (constructed_buffer env cfg ready) as [Hlg Hc Hm _ _ _ _ _]; [lia|].
  rewrite Z.div_small in Hm by lia.
  exact (updates_zero_modulus calls _ _ _ Hlg Hc Hm).
Qed.

Lemma small_buffer_never_stores_witness :
  attrs (updates (samples 3) (constructed two_actions (with_memory_size 1) (Some false)))
  = attrs (constructed two_actions (with_memory_size 1) (Some false))
  /\ outcomes (samples 3) (constructed two_actions (with_memory_size 1) (Some false))
     = replicate (length (samples 3)) (Raise ZeroDivisionError).
Proof.
  apply (small_buffer_never_stores two_actions (with_memory_size 1) (Some false)
           (samples 3)).
  cbn. lia.
Defined.

(** ** What the methods leave alone *)

Section Frames.

  Variable R : world -> world -> Prop.
  Hypothesis R_refl : forall w, R w w.
  Hypothesis R_trans : forall a b c, R a b -> R b c -> R a c.

Lemma within_ret {A} (a : A) : within R (ret a).
Proof. intros w. apply R_refl. Qed.

Lemma within_raise {A} (e : exn) : within R (raise (A := A) e).
Proof. intros w. apply R_refl. Qed.

Lemma within_block {A} : within R (block (A := A)).
Proof. intros w. apply R_refl. Qed.

Lemma within_unfinished {A} : within R (unfinished (A := A)).
Proof. intros w. apply R_refl. Qed.

Lemma within_bind {A B} (m : M A) (k : A -> M B) :
  within R m -> (forall a, within R (k a)) -> within R (bind m k).
Proof.
  intros Hm Hk w. unfold bind. specialize (Hm w).
  destruct (m w) as [[a|e| |] w1]; cbn [snd] in *; try exact Hm.
  exact (R_trans _ _ _ Hm (Hk a w1)).
Qed.

Lemma within_getattr (name : string) : within R (getattr name).
Proof. intros w. unfold getattr. destruct (attrs w !! name); apply R_refl. Qed.

Lemma within_try_except {A} (body : M A) (handler : exn -> M A) :
  within R body -> (forall e, within R (handler e)) ->
  within R (try_except body handler).
Proof.
  intros Hb Hh w. unfold try_except. specialize (Hb w).
  destruct (body w) as [[a|e| |] w1]; cbn [snd] in *; try exact Hb.
  destruct (is_Exception e); [|exact Hb].
  exact (R_trans _ _ _ Hb (Hh e w1)).
Qed.

Lemma within_np_getitem {A} (a : list A) (i : Z) : within R (np_getitem a i).
Proof.
  intros w. unfold np_getitem.
  destruct (np_index (length a) i) as [k|]; [destruct (a !! k)|]; apply R_refl.
Qed.

Lemma within_np_setitem {A} (a : list A) (i : Z) (x : A) :
  within R (np_setitem a i x).
Proof.
  intros w. unfold np_setitem.
  destruct (np_index (length a) i); apply R_refl.
Qed.

Lemma within_np_setrow {A} (shape : list nat) (a : list (list A)) (i : Z)
    (dims : list nat) (value : list A) :
  within R (np_setrow shape a i dims value).
Proof.
  intros w. unfold np_setrow.
  destruct (np_index (length a) i);
    [destruct (broadcast_row shape dims value)|]; apply R_refl.
Qed.

Lemma within_np_take {A} (a : list A) (idx : list Z) : within R (np_take a idx).
Proof.
  induction idx as [|i idx IH]; cbn [np_take]; [apply within_ret|].
  apply within_bind; [apply within_np_getitem|]. intros x.
  apply within_bind; [exact IH|]. intros xs. apply within_ret.
Qed.

End Frames.

(** The statements of a method body that bind nothing, log nothing and
    allocate nothing, taken apart. *)
Ltac frame_pure refl trans :=
  first
    [ apply (within_bind _ trans); [|intros ?]
    | apply (within_ret _ refl)
    | apply (within_raise _ refl)
    | apply (within_block _ refl)
    | apply (within_unfinished _ refl)
    | apply (within_getattr _ refl)
    | apply (within_np_take _ refl trans)
    | apply (within_np_getitem _ refl)
    | apply (within_np_setitem _ refl)
    | apply (within_np_setrow _ refl)
    | apply (within_try_except _ trans); [|intros ?]
    | match goal with
      | |- within _ (match ?x with _ => _ end) => destruct x
      end ].

Lemma unchanged_refl (w : world) : unchanged w w.
Proof. reflexivity. Qed.

Lemma unchanged_trans (a b c : world) : unchanged a b -> unchanged b c -> unchanged a c.
Proof. unfold unchanged. intros -> ->. reflexivity. Qed.

Lemma selection_unchanged (predict : nat -> list Q -> list Q)
    (puct : node -> list Q -> Q -> list npfloat) (nd : node)
    (env : environment) (root : bool) :
  within unchanged (selection predict puct nd env root).
Proof.
  unfold selection, nn_policy_from_node, getattr_float, np_random, np_argmax,
    as_float, as_model.
  cbv zeta.
  repeat frame_pure unchanged_refl unchanged_trans.
Qed.

(** [selection] only reads: whatever the state of the manager, at the root
    or below it, and however the call ends, the manager is left exactly as
    it was (no attribute bound, nothing logged, no model called). *)
Theorem selection_reads_only (predict : nat -> list Q -> list Q)
    (puct : node -> list Q -> Q -> list npfloat) (nd : node)
    (env : environment) (root : bool) (w : world) :
  snd (selection predict puct nd env root w) = w.
Proof. exact (selection_unchanged predict puct nd env root w). Qed.

Lemma keeps_refl (name : string) (w : world) : keeps name w w.
Proof. reflexivity. Qed.

Lemma keeps_trans (name : string) (a b c : world) :
  keeps name a b -> keeps name b c -> keeps name a c.
Proof. unfold keeps. intros H1 H2. rewrite H2. exact H1. Qed.

Lemma keeps_setattr (name n : string) (v : pyval) :
  n <> name -> within (keeps name) (setattr n v).
Proof.
  intros Hne w. unfold keeps, setattr. cbn [snd attrs].
  apply lookup_insert_ne. exact Hne.
Qed.

Lemma keeps_emit (name : string) (e : event) : within (keeps name) (emit e).
Proof. intros w. reflexivity. Qed.

Lemma keeps_cleared (name : string) (stop : bool) :
  "_optimize_event" <> name -> within (keeps name) (cleared_elsewhere stop).
Proof.
  intros Hne w. unfold keeps, cleared_elsewhere.
  destruct stop; [|reflexivity].
  destruct (attrs w !! "_optimize_event") as [[]|]; try reflexivity.
  cbn [snd attrs]. apply lookup_insert_ne. exact Hne.
Qed.

Ltac not_written H :=
  let E := fresh in
  intros E; apply H; rewrite <- E;
  unfold update_writes, training_writes; repeat constructor.

Ltac frame_keeps H :=
  first
    [ match goal with
      | |- within (keeps ?n) _ => frame_pure (keeps_refl n) (keeps_trans n)
      end
    | apply keeps_emit
    | apply keeps_setattr; not_written H
    | apply keeps_cleared; not_written H ].

Lemma update_keeps (nd : node) (reward : Q) (name : string) :
  name ∉ update_writes -> within (keeps name) (update nd reward).
Proof.
  intros H.
  unfold update, log, getattr_int, as_int, as_array1, as_ndarray, is_set,
    event_set, py_mod.
  cbv zeta.
  repeat (frame_keeps H).
Qed.

(** [update] binds no attribute outside [update_writes], however it ends:
    in particular it never touches the models, the training counters or the
    schedule. *)
Theorem update_binds_only (nd : node) (reward : Q) (name : string) (w : world) :
  name ∉ update_writes ->
  attrs (snd (update nd reward w)) !! name = attrs w !! name.
Proof. intros H. exact (update_keeps nd reward name H w). Qed.

Lemma update_binds_only_witness :
  attrs (snd (update (fst (sample 1)) (snd (sample 1))
                (constructed two_actions default_config (Some false)))) !! "model"
  = attrs (constructed two_actions default_config (Some false)) !! "model".
Proof.
  apply (update_binds_only (fst (sample 1)) (snd (sample 1)) "model").
  apply (bool_decide_unpack _). vm_compute. exact I.
Defined.

Lemma train_step_keeps (name : string) (batch_size : pyval) (t : tick) :
  name ∉ training_writes -> within (keeps name) (train_step batch_size t).
Proof.
  intros H.
  unfold train_step, randint, fit, save, call, log, getattr_int, as_int,
    as_array1, as_array2, as_model.
  repeat (frame_keeps H).
Qed.

Lemma train_loop_keeps (name : string) (batch_size : pyval) (schedule : list tick) :
  name ∉ training_writes -> within (keeps name) (train_loop batch_size schedule).
Proof.
  intros H. induction schedule as [|t rest IH]; cbn [train_loop].
  - apply within_unfinished. apply keeps_refl.
  - unfold is_set.
    repeat first [ exact IH | apply train_step_keeps; exact H | frame_keeps H ].
Qed.

Lemma train_process_keeps (schedule : list tick) (name : string) :
  name ∉ training_writes -> within (keeps name) (_train_process schedule).
Proof.
  intros H.
  unfold _train_process, event_wait, sys_exit, log, getattr_float, as_float.
  repeat first [ apply train_loop_keeps; exact H | frame_keeps H ].
Qed.

(** A run of [_train_process] binds no attribute outside [training_writes],
    however it ends: the training thread reads the replay table and never
    writes it, and it rebinds neither model. *)
Theorem training_binds_only (schedule : list tick) (name : string) (w : world) :
  name ∉ training_writes ->
  attrs (snd (_train_process schedule w)) !! name = attrs w !! name.
Proof. intros H. exact (train_process_keeps schedule name H w). Qed.

Lemma training_binds_only_witness :
  attrs (snd (_train_process [quiet_tick; failing_tick] trained)) !! "replay_rewards"
  = attrs trained !! "replay_rewards".
Proof.
  apply (training_binds_only [quiet_tick; failing_tick] "replay_rewards").
  apply (bool_decide_unpack _). vm_compute. exact I.
Defined.

(** ** More on the training thread *)

Lemma quiet_refl (w : world) : quiet w w.
Proof. reflexivity. Qed.

Lemma quiet_trans (a b c : world) : quiet a b -> quiet b c -> quiet a c.
Proof. unfold quiet. intros H1 H2. rewrite H2. exact H1. Qed.

Lemma error_records_app (a b : list event) :
  error_records (a ++ b) = (error_records a + error_records b)%nat.
Proof. unfold error_records. rewrite List.filter_app. apply length_app. Qed.

Lemma fit_calls_app (a b : list event) :
  fit_calls (a ++ b) = (fit_calls a + fit_calls b)%nat.
Proof. unfold fit_calls. rewrite List.filter_app. apply length_app. Qed.

Lemma quiet_emit (e : event) : is_error_record e = false -> within quiet (emit e).
Proof.
  intros He w. unfold quiet, emit. cbn [snd trace].
  rewrite error_records_app. unfold error_records at 2. cbn [List.filter].
  rewrite He. cbn. lia.
Qed.

Lemma quiet_setattr (n : string) (v : pyval) : within quiet (setattr n v).
Proof. intros w. reflexivity. Qed.

Lemma quiet_cleared (stop : bool) : within quiet (cleared_elsewhere stop).
Proof.
  intros w. unfold quiet, cleared_elsewhere.
  destruct stop; [|reflexivity].
  destruct (attrs w !! "_optimize_event") as [[]|]; reflexivity.
Qed.

Ltac frame_quiet :=
  first
    [ frame_pure quiet_refl quiet_trans
    | apply quiet_emit; reflexivity
    | apply quiet_setattr
    | apply quiet_cleared ].

(** The loop itself never logs an error: error records come from the
    handler of [_train_process] only. *)
Lemma train_loop_quiet (batch_size : pyval) (schedule : list tick) :
  within quiet (train_loop batch_size schedule).
Proof.
  induction schedule as [|t rest IH]; cbn [train_loop].
  - apply within_unfinished. apply quiet_refl.
  - unfold train_step, randint, fit, save, call, log, getattr_int, as_int,
      as_array1, as_array2, as_model, is_set.
    repeat first [ exact IH | frame_quiet ].
Qed.

(** [_train_process] on a manager whose loop can run: the two records of
    the start, then the loop inside the [try]. *)
Lemma train_process_run (schedule : list tick) (w : world) (c K : Z)
    (ss ps : list (list Q)) (rs : list Q) (cand : nat) (s cp itv b : Z) :
  trainer w c K ss ps rs cand s cp itv b ->
  let w0 :=
    World (attrs w)
      ((trace w ++ [EvLog "NNPolicyManager|Network" INFO (Text "Starting Training Thread")])
         ++ [EvLog "NNPolicyManager|Network" INFO (Text "Waiting for more data")])
      (next_ref w) in
  trainer w0 c K ss ps rs cand s cp itv b
  /\ _train_process schedule w =
     match train_loop (VInt b) schedule w0 with
     | (Raise e, w') =>
         if is_Exception e
         then (log "_nn_logger" ERROR (Crashed e);;; sys_exit 0) w'
         else (Raise e, w')
     | r => r
     end.
Proof.
  intros Hv w0. split; [apply trainer_trace; exact Hv|].
  pose proof (tr_logger _ _ _ _ _ _ _ _ _ _ _ Hv) as Hlg.
  pose proof (tr_batch _ _ _ _ _ _ _ _ _ _ _ Hv) as Hb.
  pose proof (tr_ready _ _ _ _ _ _ _ _ _ _ _ Hv) as Hr.
  destruct (tr_modulus _ _ _ _ _ _ _ _ _ _ _ Hv) as [m Hm].
  unfold _train_process. step.
  erewrite run_getattr_number by solve_lookup. reduce.
  step. unfold try_except, event_wait. do 2 step.
  fold w0. destruct (train_loop (VInt b) schedule w0) as [[[]|e| |] w'];
    reflexivity.
Qed.

(** An exception of the collaborator that is not an [Exception] (here
    [SystemExit]) is not caught by the handler: [_train_process] raises it
    as it is and logs no error. *)
Theorem training_passes_on_what_is_no_Exception (schedule : list tick)
    (w : world) (c K : Z) (ss ps : list (list Q)) (rs : list Q) (cand : nat)
    (s cp itv b : Z) (e : exn) :
  trainer w c K ss ps rs cand s cp itv b ->
  first_failure s cp itv schedule = Some e ->
  is_Exception e = false ->
  fst (_train_process schedule w) = Raise e
  /\ error_records (trace (snd (_train_process schedule w)))
     = error_records (trace w).
Proof.
  intros Hv Hf He.
  destruct (train_process_run schedule w _ _ _ _ _ _ _ _ _ _ Hv) as [Hv0 ->].
  destruct (train_loop_failure schedule _ _ _ _ _ _ _ _ _ _ _ e Hv0 Hf)
    as (w' & Hloop & _).
  pose proof (train_loop_quiet (VInt b) schedule
                (World (attrs w)
                   ((trace w ++ [EvLog "NNPolicyManager|Network" INFO
                                   (Text "Starting Training Thread")])
                      ++ [EvLog "NNPolicyManager|Network" INFO
                            (Text "Waiting for more data")])
                   (next_ref w))) as Hq.
  rewrite Hloop in *. rewrite He. cbn [fst snd] in *.
  split; [reflexivity|].
  unfold quiet in Hq. cbn [trace] in Hq. rewrite Hq, !error_records_app.
  cbn. lia.
Qed.

Lemma training_passes_on_what_is_no_Exception_witness :
  fst (_train_process
         [quiet_tick; Tick false (fun k => 0) (Throws (SystemExit 3)) (Answers tt)]
         trained)
  = Raise (SystemExit 3)
  /\ error_records
       (trace (snd (_train_process
                      [quiet_tick;
                       Tick false (fun k => 0) (Throws (SystemExit 3)) (Answers tt)]
                      trained)))
     = error_records (trace trained).
Proof.
  exact (training_passes_on_what_is_no_Exception
           [quiet_tick; Tick false (fun k => 0) (Throws (SystemExit 3)) (Answers tt)]
           trained _ _ _ _ _ _ _ _ _ _ (SystemExit 3)
           trained_trainer eq_refl eq_refl).
Defined.

(** Turns in which the model answers: the loop goes through them, one
    [fit] and one step of the counter per turn. *)
Lemma train_loop_cooperative (pre : list tick) :
  forall (rest : list tick) (w : world) (c K : Z) (ss ps : list (list Q))
         (rs : list Q) (cand : nat) (s cp itv b : Z),
  trainer w c K ss ps rs cand s cp itv b ->
  forallb cooperative pre = true ->
  exists w' cp',
    train_loop (VInt b) (pre ++ rest) w = train_loop (VInt b) rest w'
    /\ trainer w' c K ss ps rs cand (s + Z.of_nat (length pre)) cp' itv b
    /\ fit_calls (trace w') = (fit_calls (trace w) + length pre)%nat.
Proof.
  induction pre as [|t pre IH]; intros rest w c K ss ps rs cand s cp itv b Hv Hco.
  - exists w, cp. cbn [app length]. rewrite Z.add_0_r, Nat.add_0_r. auto.
  - cbn [forallb] in Hco. apply andb_prop in Hco as [Ht Hco].
    unfold cooperative in Ht.
    apply andb_prop in Ht as [Ht Hsave]. apply andb_prop in Ht as [Hstop Hfit].
    cbn [app]. rewrite (train_loop_turn t (pre ++ rest) w _ _ _ _ _ _ _ _ _ _ Hv).
    destruct (stop_requested t); [discriminate Hstop|].
    unfold bind. rewrite (train_step_run t w _ _ _ _ _ _ _ _ _ _ Hv). cbv zeta.
    destruct (fit_answer t) as [h|]; [|discriminate Hfit].
    destruct (save_answer t) as [[]|]; [|discriminate Hsave].
    replace (s + Z.of_nat (length (t :: pre)))
      with (s + 1 + Z.of_nat (length pre)) by (cbn [length]; lia).
    destruct (s + 1 =? cp).
    + edestruct (IH rest) as (w' & cp' & Hl & Hv' & Hc);
        [apply trainer_checkpoint; exact Hv | exact Hco |].
      exists w', cp'. split; [exact Hl|]. split; [exact Hv'|].
      rewrite Hc. cbn [trace length]. rewrite !fit_calls_app. cbn. lia.
    + edestruct (IH rest) as (w' & cp' & Hl & Hv' & Hc);
        [apply trainer_step; exact Hv | exact Hco |].
      exists w', cp'. split; [exact Hl|]. split; [exact Hv'|].
      rewrite Hc. cbn [trace length]. rewrite !fit_calls_app. cbn. lia.
Qed.

(** Cancellation is cooperative: when the model answers in the first [n]
    turns and the optimize flag has been cleared before the next test,
    [_train_process] returns normally after exactly [n] calls of [fit],
    with the step counter advanced by [n] and the flag still cleared. *)
Theorem training_stops_on_request (pre post : list tick) (t : tick) (w : world)
    (c K : Z) (ss ps : list (list Q)) (rs : list Q) (cand : nat)
    (s cp itv b : Z) :
  trainer w c K ss ps rs cand s cp itv b ->
  forallb cooperative pre = true ->
  stop_requested t = true ->
  let r := _train_process (pre ++ t :: post) w in
  fst r = Return tt
  /\ attrs (snd r) !! "_training_step" = Some (VInt (s + Z.of_nat (length pre)))
  /\ attrs (snd r) !! "_optimize_event" = Some (VEvent false)
  /\ fit_calls (trace (snd r)) = (fit_calls (trace w) + length pre)%nat.
Proof.
  intros Hv Hco Hstop r. unfold r.
  destruct (train_process_run (pre ++ t :: post) w _ _ _ _ _ _ _ _ _ _ Hv)
    as [Hv0 ->].
  destruct (train_loop_cooperative pre (t :: post) _ _ _ _ _ _ _ _ _ _ _ Hv0 Hco)
    as (w' & cp' & -> & Hv' & Hc).
  rewrite (train_loop_turn t post w' _ _ _ _ _ _ _ _ _ _ Hv'), Hstop.
  cbn [fst snd attrs trace].
  split; [reflexivity|].
  split; [look; exact (tr_step _ _ _ _ _ _ _ _ _ _ _ Hv')|].
  split; [look; reflexivity|].
  rewrite Hc. cbn [trace]. rewrite !fit_calls_app. cbn. lia.
Qed.

Lemma training_stops_on_request_witness :
  let r := _train_process
             ([quiet_tick; quiet_tick; quiet_tick]
                ++ Tick true (fun k => 0) (Answers []) (Answers tt) :: [failing_tick])
             trained in
  fst r = Return tt
  /\ attrs (snd r) !! "_training_step" = Some (VInt (0 + Z.of_nat 3))
  /\ attrs (snd r) !! "_optimize_event" = Some (VEvent false)
  /\ fit_calls (trace (snd r)) = (fit_calls (trace trained) + 3)%nat.
Proof.
  exact (training_stops_on_request [quiet_tick; quiet_tick; quiet_tick]
           [failing_tick] (Tick true (fun k => 0) (Answers []) (Answers tt))
           trained _ _ _ _ _ _ _ _ _ _ trained_trainer eq_refl eq_refl).
Defined.

(** The attributes of a constructed manager that the training thread reads
    first. *)
Lemma constructed_training_attrs (env : environment) (cfg : config)
    (ready : option bool) :
  0 <= cfg_memory_size cfg ->
  attrs (constructed env cfg ready) !! "_nn_logger"
  = Some (VLogger "NNPolicyManager|Network")
  /\ attrs (constructed env cfg ready) !! "min_train_capacity"
     = Some (VInt (cfg_memory_size cfg / 2))
  /\ attrs (constructed env cfg ready) !! "batch_size"
     = Some (VInt (cfg_batch_size cfg))
  /\ attrs (constructed env cfg ready) !! "_replay_index" = Some (VInt 0)
  /\ attrs (constructed env cfg ready) !! "replay_maxlen"
     = Some (VInt (cfg_memory_size cfg))
  /\ attrs (constructed env cfg ready) !! "replay_ready" = VEvent <$> ready
  /\ attrs (constructed env cfg ready) !! "_optimize_event" = None
  /\ fit_calls (trace (constructed env cfg ready)) = 0%nat.
Proof.
  intros HK.
  assert (E : (cfg_memory_size cfg <? 0) = false) by lia.
  unfold constructed, attach, fresh, __init__, np_zeros, py_floordiv. rewrite E.
  change (2 =? 0) with false.
  destruct ready;
    cbv beta iota delta [bind setattr clone ret blank attrs trace next_ref snd];
    repeat split; look; reflexivity.
Qed.

Lemma run_cleared_unbound (stop : bool) (w : world) :
  attrs w !! "_optimize_event" = None -> cleared_elsewhere stop w = (Return tt, w).
Proof. intros H. unfold cleared_elsewhere. rewrite H. destruct stop; reflexivity. Qed.

(** A manager as the constructor leaves it cannot train, whatever the
    collaborators would answer and whether or not the caller has attached a
    readiness event: with [replay_ready] unbound the thread logs a crash
    and exits; with the event unset it waits; with the event set it crashes
    on the optimize event, which nothing binds.  No [fit] is ever called. *)
Theorem constructed_manager_cannot_train (env : environment) (cfg : config)
    (ready : option bool) (t : tick) (rest : list tick) :
  0 <= cfg_memory_size cfg ->
  let r := _train_process (t :: rest) (constructed env cfg ready) in
  match ready with
  | None =>
      fst r = Raise (SystemExit 0)
      /\ last (trace (snd r))
         = Some (EvLog "NNPolicyManager|Network" ERROR
                   (Crashed (AttributeError "replay_ready")))
  | Some false => fst r = Waiting
  | Some true =>
      fst r = Raise (SystemExit 0)
      /\ last (trace (snd r))
         = Some (EvLog "NNPolicyManager|Network" ERROR
                   (Crashed (AttributeError "_optimize_event")))
  end
  /\ fit_calls (trace (snd r)) = 0%nat.
Proof.
  intros HK r. unfold r. clear r.
  destruct (constructed_training_attrs env cfg ready HK)
    as (Hlg & Hm & Hb & _ & _ & Hr & Ho & Hf).
  destruct (constructed env cfg ready) as [a tr nr];
    cbn [attrs trace next_ref] in *.
  unfold _train_process. step.
  erewrite run_getattr_number by solve_lookup. reduce.
  step. unfold try_except, event_wait. step.
  destruct ready as [[|]|]; cbn [fmap option_fmap option_map] in Hr.
  - step. cbn [train_loop]. unfold bind.
    rewrite run_cleared_unbound by solve_lookup.
    step. cbn [is_Exception]. step. unfold sys_exit, raise. cbn [fst snd trace].
    split; [split; [reflexivity | apply last_snoc]|].
    rewrite !fit_calls_app, Hf. reflexivity.
  - step. unfold block. cbn [fst snd trace]. split; [reflexivity|].
    rewrite !fit_calls_app, Hf. reflexivity.
  - step. cbn [is_Exception]. step. unfold sys_exit, raise. cbn [fst snd trace].
    split; [split; [reflexivity | apply last_snoc]|].
    rewrite !fit_calls_app, Hf. reflexivity.
Qed.

Lemma constructed_manager_cannot_train_witness :
  fst (_train_process [quiet_tick] (constructed two_actions default_config (Some false)))
  = Waiting
  /\ fit_calls (trace (snd (_train_process [quiet_tick]
                              (constructed two_actions default_config (Some false)))))
     = 0%nat.
Proof.
  apply (constructed_manager_cannot_train two_actions default_config (Some false)
           quiet_tick []).
  cbn. lia.
Defined.

(** Training on an empty replay table crashes: on a manager constructed
    with a batch size other than 0, to which both events have been
    attached, set, before any [update], the first turn asks [randint] for
    indices below 0, the [ValueError] is logged as a crash, and the thread
    exits without a single [fit]. *)
Theorem empty_table_training_crashes (env : environment) (cfg : config)
    (t : tick) (rest : list tick) :
  0 <= cfg_memory_size cfg ->
  cfg_batch_size cfg <> 0 ->
  stop_requested t = false ->
  let r := _train_process (t :: rest)
             (attach "_optimize_event" (VEvent true)
                (constructed env cfg (Some true))) in
  fst r = Raise (SystemExit 0)
  /\ last (trace (snd r))
     = Some (EvLog "NNPolicyManager|Network" ERROR
               (Crashed (ValueError "low >= high")))
  /\ fit_calls (trace (snd r)) = 0%nat.
Proof.
  intros HK Hbatch Hstop r. unfold r.
  destruct (constructed_training_attrs env cfg (Some true) HK)
    as (Hlg & Hm & Hb & Hc & Hmax & Hr & _ & Hf).
  cbn [fmap option_fmap option_map] in Hr.
  destruct (constructed env cfg (Some true)) as [a tr nr];
    unfold attach; cbn [attrs trace next_ref] in *.
  unfold _train_process. step.
  erewrite run_getattr_number by solve_lookup. reduce.
  step. unfold try_except, event_wait. do 2 step.
  cbn [train_loop]. unfold cleared_elsewhere. rewrite Hstop.
  unfold bind at 1. cbv beta iota. do 1 step.
  unfold train_step. do 2 step. unfold randint. step.
  destruct (Z.eqb_spec (cfg_batch_size cfg) 0) as [E|_]; [contradiction|].
  rewrite Z.min_l by lia. change (0 <=? 0) with true. reduce.
  cbn [is_Exception]. step. unfold sys_exit, raise. cbn [fst snd trace].
  split; [reflexivity|]. split; [apply last_snoc|].
  rewrite !fit_calls_app, Hf. reflexivity.
Qed.

Lemma empty_table_training_crashes_witness :
  fst (_train_process [quiet_tick]
         (attach "_optimize_event" (VEvent true)
            (constructed two_actions default_config (Some true))))
  = Raise (SystemExit 0).
Proof.
  refine (proj1 (empty_table_training_crashes two_actions default_config
                   quiet_tick [] _ _ eq_refl)).
  - cbn. lia.
  - cbn. discriminate.
Defined.

(** ** [ZeroPolicyManager] *)

(** [ZeroPolicyManager] cannot be instantiated: its constructor looks up
    [ZeroNN], which the module neither imports nor defines, so it raises
    [NameError] before any attribute is bound, whatever the arguments. *)
Theorem ZeroPolicyManager_cannot_be_built (env : environment)
    (residual_layers filters kernel_size : Z) (cfg : config) (w : world) :
  ZeroPolicyManager__init__ env residual_layers filters kernel_size cfg w
  = (Raise (NameError "ZeroNN"), w).
Proof. reflexivity. Qed.

(** ** More on selection and action choice *)

Lemma bind_ext {A B} (m : M A) (k1 k2 : A -> M B) (w : world) :
  (forall a w', k1 a w' = k2 a w') -> bind m k1 w = bind m k2 w.
Proof.
  intros H. unfold bind. destruct (m w) as [[a|e| |] w']; try reflexivity.
  apply H.
Qed.

Lemma np_getitem_score (pi : list npfloat) (a : Z) (w : world) :
  np_getitem pi a w =
  match score_at pi a with
  | Some x => (Return x, w)
  | None => (Raise IndexError, w)
  end.
Proof.
  unfold np_getitem, score_at.
  destruct (np_index (length pi) a) as [k|]; [|reflexivity].
  destruct (pi !! k); reflexivity.
Qed.

Lemma np_take_ext (pi1 pi2 : list npfloat) (idx : list Z) (w : world) :
  (forall a, a ∈ idx -> score_at pi1 a = score_at pi2 a) ->
  np_take pi1 idx w = np_take pi2 idx w.
Proof.
  induction idx as [|i idx IH]; intros H; [reflexivity|].
  cbn [np_take]. unfold bind at 1 3.
  rewrite !np_getitem_score, (H i) by (left).
  destruct (score_at pi2 i); [|reflexivity].
  unfold bind. rewrite IH; [reflexivity|].
  intros a Ha. apply H. right. exact Ha.
Qed.

(** The scores of the actions outside [env.actions] never influence
    [selection]: two score functions that agree on the legal actions give
    the same outcome, in every state of the manager. *)
Theorem selection_ignores_illegal_scores (predict : nat -> list Q -> list Q)
    (puct1 puct2 : node -> list Q -> Q -> list npfloat) (nd : node)
    (env : environment) (root : bool) (w : world) :
  (forall p c a, a ∈ actions env ->
                 score_at (puct1 nd p c) a = score_at (puct2 nd p c) a) ->
  selection predict puct1 nd env root w = selection predict puct2 nd env root w.
Proof.
  intros H. unfold selection.
  apply bind_ext. intros p w1. apply bind_ext. intros p' w2.
  apply bind_ext. intros c w3.
  unfold bind at 1 3. rewrite (np_take_ext _ _ _ w3 (H p' c)). reflexivity.
Qed.

Lemma selection_ignores_illegal_scores_witness :
  selection (fun _ st => st) wild_scores (fst (sample 1)) two_actions false
    (fresh two_actions default_config)
  = selection (fun _ st => st) other_scores (fst (sample 1)) two_actions false
      (fresh two_actions default_config).
Proof.
  apply (selection_ignores_illegal_scores (fun _ st => st) wild_scores other_scores).
  intros p c a Ha. cbn [actions two_actions] in Ha.
  apply elem_of_cons in Ha as [->|Ha]; [reflexivity|].
  apply elem_of_cons in Ha as [->|Ha]; [reflexivity|].
  apply elem_of_nil in Ha. destruct Ha.
Defined.

Lemma np_take_out_of_range (pi : list npfloat) (idx : list Z) (w : world) :
  Exists (fun a => score_at pi a = None) idx ->
  np_take pi idx w = (Raise IndexError, w).
Proof.
  induction idx as [|i idx IH]; intros H; [inversion H|].
  cbn [np_take]. unfold bind at 1. rewrite np_getitem_score.
  destruct (score_at pi i) as [x|] eqn:E; [|reflexivity].
  unfold bind. rewrite IH; [reflexivity|].
  apply Exists_cons in H as [H|H]; [congruence | exact H].
Qed.

(** An action that does not index the score vector is not skipped: below
    the root, on a constructed manager, [selection] raises [IndexError] as
    soon as one action of the set is out of range. *)
Theorem selection_rejects_stray_action (predict : nat -> list Q -> list Q)
    (puct : node -> list Q -> Q -> list npfloat) (nd : node)
    (env env' : environment) (cfg : config) :
  Exists (fun a => score_at (puct nd (predict 1%nat (state nd)) (cfg_C cfg)) a = None)
    (actions env) ->
  selection predict puct nd env false (fresh env' cfg)
  = (Raise IndexError, fresh env' cfg).
Proof.
  intros H.
  destruct (fresh_early env' cfg) as (_ & Hm & _ & Hd & _ & _ & HC & _).
  unfold selection, nn_policy_from_node.
  destruct (S (state_ndim nd) =? 3)%nat.
  - do 3 step. rewrite (np_take_out_of_range _ _ _ H). reflexivity.
  - unfold bind at 1 2. reduce. do 2 step.
    rewrite (np_take_out_of_range _ _ _ H). reflexivity.
Qed.

Lemma selection_rejects_stray_action_witness :
  selection (fun _ st => st) wild_scores (fst (sample 1)) stray_action false
    (fresh two_actions default_config)
  = (Raise IndexError, fresh two_actions default_config).
Proof.
  apply (selection_rejects_stray_action (fun _ st => st) wild_scores
           (fst (sample 1)) stray_action two_actions default_config).
  apply Exists_cons. right. apply Exists_cons. left. reflexivity.
Defined.

(** With an empty action set, below the root, [selection] on a constructed
    manager raises the [ValueError] of [argmax] on an empty array. *)
Theorem selection_rejects_empty_action_set (predict : nat -> list Q -> list Q)
    (puct : node -> list Q -> Q -> list npfloat) (nd : node)
    (env env' : environment) (cfg : config) :
  actions env = [] ->
  selection predict puct nd env false (fresh env' cfg)
  = (Raise (ValueError "attempt to get argmax of an empty sequence"),
     fresh env' cfg).
Proof.
  intros H.
  destruct (fresh_early env' cfg) as (_ & Hm & _ & Hd & _ & _ & HC & _).
  unfold selection, nn_policy_from_node. rewrite H.
  destruct (S (state_ndim nd) =? 3)%nat.
  - do 3 step. reflexivity.
  - unfold bind at 1 2. reduce. do 2 step. reflexivity.
Qed.

Lemma selection_rejects_empty_action_set_witness :
  selection (fun _ st => st) wild_scores (fst (sample 1))
    (Environment [1%nat] 2 []) false (fresh two_actions default_config)
  = (Raise (ValueError "attempt to get argmax of an empty sequence"),
     fresh two_actions default_config).
Proof.
  apply (selection_rejects_empty_action_set (fun _ st => st) wild_scores
           (fst (sample 1)) (Environment [1%nat] 2 []) two_actions default_config).
  reflexivity.
Defined.

(** When a schedule is bound under the name that [action_choice] reads, the
    temperature handed on is the value at the greatest key below 5 for
    every move number other than 0, and [IndexError] is raised when no key
    is below 5: the move number itself is never compared with a key. *)
Theorem action_choice_temperature
    (zero_temperature_choice : node -> option Q -> M Z) (nd : node)
    (w : world) (items : list (Z * Q)) (move_number : Z) :
  attrs w !! "tempurature_schedule" = Some (VSortedDict items) ->
  move_number <> 0 ->
  action_choice zero_temperature_choice nd (Some move_number) w
  = match last (map snd (List.filter (fun ji => fst ji <? 5) items)) with
    | Some temp => zero_temperature_choice nd (Some temp) w
    | None => (Raise IndexError, w)
    end.
Proof.
  intros Hs Hm. unfold action_choice, truthy_move.
  destruct (Z.eqb_spec move_number 0) as [E|_]; [contradiction|]. cbn [negb].
  step. unfold py_last, bind.
  destruct (last _); reflexivity.
Qed.

Lemma action_choice_temperature_witness :
  action_choice (fun _ temp => ret (match temp with Some _ => 1 | None => 0 end))
    (fst (sample 1)) (Some 9)
    (attach "tempurature_schedule" (VSortedDict three_stage_schedule) blank)
  = (Return 1, attach "tempurature_schedule" (VSortedDict three_stage_schedule) blank).
Proof.
  refine (action_choice_temperature _ (fst (sample 1))
            (attach "tempurature_schedule" (VSortedDict three_stage_schedule) blank)
            three_stage_schedule 9 _ _).
  - reflexivity.
  - discriminate.
Defined.

(** ** More on evaluation *)

(** The one error that [evaluation] announces: when [self.simulator] is
    falsy, it raises [ValueError] right after its first log record, before
    it touches a model. *)
Theorem evaluation_without_simulator (wins : Z) (w : world) (lg : string)
    (v : pyval) :
  attrs w !! "_logger" = Some (VLogger lg) ->
  attrs w !! "simulator" = Some v ->
  falsy v = true ->
  evaluation wins w
  = (Raise (ValueError "Cannot run NNPolicyManager in training mode without a simulator"),
     World (attrs w)
       (trace w ++ [EvLog lg INFO (Text "Running Evaluation at timestep {self._training_step}")])
       (next_ref w)).
Proof.
  intros Hlg Hs Hf. unfold evaluation. do 2 step. rewrite Hf. reflexivity.
Qed.

Lemma evaluation_without_simulator_witness :
  fst (evaluation 240 (attach "simulator" VNone (fresh two_actions default_config)))
  = Raise (ValueError "Cannot run NNPolicyManager in training mode without a simulator").
Proof.
  rewrite (evaluation_without_simulator 240
             (attach "simulator" VNone (fresh two_actions default_config))
             "NNPolicyManager" VNone);
    reflexivity.
Defined.

(** ** Histories of calls *)

Lemma evaluation_binds_nothing (wins : Z) (w : world) :
  attrs (snd (evaluation wins w)) = attrs w.
Proof.
  unfold evaluation, log, bind, getattr, emit, raise, ret.
  destruct (attrs w !! "_logger") as [[]|]; try reflexivity.
  cbn [attrs].
  destruct (attrs w !! "simulator") as [[]|] eqn:Hs;
    repeat
      (cbv beta iota; cbn [attrs falsy]; try rewrite Hs;
       first
         [ reflexivity
         | match goal with
           | |- context [if ?b then _ else _] => destruct b
           | |- context [match ?l with [] => _ | _ :: _ => _ end] => destruct l
           end ]).
Qed.

(** Whatever calls of [update], [_train_process], [evaluation], [selection]
    and [rollout] a driver makes on a constructed manager, in whatever
    order and however they end, the live model stays the clone made by the
    constructor and the candidate stays the model passed in: no history of
    calls promotes the candidate. *)
Theorem live_model_is_never_replaced (predict : nat -> list Q -> list Q)
    (puct : node -> list Q -> Q -> list npfloat) (env : environment)
    (cfg : config) (calls : list method_call) :
  attrs (history predict puct calls (fresh env cfg)) !! "model" = Some (VModel 1)
  /\ attrs (history predict puct calls (fresh env cfg)) !! "_next_model"
     = Some (VModel 0).
Proof.
  destruct (fresh_early env cfg) as (_ & Hm & Hn & _).
  revert Hm Hn. generalize (fresh env cfg).
  induction calls as [|call calls IH]; intros w Hm Hn; [split; assumption|].
  cbn [history].
  apply IH; destruct call as [nd reward|schedule|wins|nd env0 root|nd env0].
  - rewrite (update_keeps nd reward "model"); [exact Hm|].
    apply (bool_decide_unpack _). vm_compute. exact I.
  - rewrite (train_process_keeps schedule "model"); [exact Hm|].
    apply (bool_decide_unpack _). vm_compute. exact I.
  - rewrite evaluation_binds_nothing. exact Hm.
  - rewrite (selection_unchanged predict puct nd env0 root). exact Hm.
  - unfold rollout. rewrite (selection_unchanged predict puct nd env0 false). exact Hm.
  - rewrite (update_keeps nd reward "_next_model"); [exact Hn|].
    apply (bool_decide_unpack _). vm_compute. exact I.
  - rewrite (train_process_keeps schedule "_next_model"); [exact Hn|].
    apply (bool_decide_unpack _). vm_compute. exact I.
  - rewrite evaluation_binds_nothing. exact Hn.
  - rewrite (selection_unchanged predict puct nd env0 root). exact Hn.
  - unfold rollout. rewrite (selection_unchanged predict puct nd env0 false). exact Hn.
Qed.

(** ** The replay table as the training thread sees it *)

Lemma updates_keep (name : string) (calls : list (node * Q)) :
  name ∉ update_writes ->
  forall w, attrs (updates calls w) !! name = attrs w !! name.
Proof.
  intros H. induction calls as [|[nd reward] calls IH]; intros w; [reflexivity|].
  cbn [updates]. rewrite IH. exact (update_keeps nd reward name H w).
Qed.

Lemma fresh_counters (env : environment) (cfg : config) :
  0 <= cfg_memory_size cfg ->
  attrs (fresh env cfg) !! "_training_step" = Some (VInt 0)
  /\ attrs (fresh env cfg) !! "checkpoint" = Some (VInt 1)
  /\ attrs (fresh env cfg) !! "checkpoint_interval" = Some (VInt (cfg_checkpoint cfg)).
Proof.
  intros HK.
  assert (E : (cfg_memory_size cfg <? 0) = false) by lia.
  unfold fresh, __init__, np_zeros, py_floordiv. rewrite E.
  change (2 =? 0) with false.
  cbv beta iota delta [bind setattr clone ret blank attrs trace next_ref snd].
  repeat split; look; reflexivity.
Qed.

Lemma ready_to_train_lookup (env : environment) (cfg : config)
    (calls : list (node * Q)) (name : string) :
  "_optimize_event" <> name -> "replay_ready" <> name ->
  attrs (ready_to_train env cfg calls) !! name
  = attrs (updates calls (fresh env cfg)) !! name.
Proof.
  intros H1 H2. unfold ready_to_train, attach. cbn [attrs].
  rewrite lookup_insert_ne by exact H1. apply lookup_insert_ne. exact H2.
Qed.

Lemma ready_to_train_kept (env : environment) (cfg : config)
    (calls : list (node * Q)) (name : string) (v : pyval) :
  "_optimize_event" <> name -> "replay_ready" <> name ->
  name ∉ update_writes ->
  attrs (fresh env cfg) !! name = Some v ->
  attrs (ready_to_train env cfg calls) !! name = Some v.
Proof.
  intros H1 H2 H3 H.
  rewrite ready_to_train_lookup, updates_keep by assumption. exact H.
Qed.

Ltac unwritten := apply (bool_decide_unpack _); vm_compute; exact I.

Ltac kept H :=
  apply ready_to_train_kept;
  [ intro; discriminate | intro; discriminate | unwritten | exact H ].

Lemma constructed_unbound (env : environment) (cfg : config) :
  constructed env cfg None = fresh env cfg.
Proof. reflexivity. Qed.

(** The replay table after some calls of [update] on a constructed
    manager, with states of the shape of a slot: the cursor counts the
    calls and the upper half still holds the constructor's zeros. *)
Lemma updated_table (env : environment) (cfg : config) (calls : list (node * Q)) :
  2 <= cfg_memory_size cfg ->
  forallb (fun call => fits (state_shape env) (fst call)) calls = true ->
  exists ss ps rs,
    buffer (updates calls (fresh env cfg)) (state_shape env)
      (Z.of_nat (length calls))
      (cfg_memory_size cfg / 2) (Z.of_nat (action_space env)) ss ps rs
      (ready_after 0 (cfg_memory_size cfg / 2) None (length calls))
    /\ (length ss = Z.to_nat (cfg_memory_size cfg)
        /\ length ps = Z.to_nat (cfg_memory_size cfg)
        /\ length rs = Z.to_nat (cfg_memory_size cfg))
    /\ forall j : nat,
         (Z.to_nat (cfg_memory_size cfg / 2) <= j < Z.to_nat (cfg_memory_size cfg))%nat ->
         ss !! j = Some (replicate (product (state_shape env)) 0%Q)
         /\ ps !! j = Some (replicate (action_space env) 0%Q)
         /\ rs !! j = Some 0%Q.
Proof.
  intros HK Hfit.
  assert (HK0 : 0 <= cfg_memory_size cfg) by lia.
  assert (Hm : 0 < cfg_memory_size cfg / 2) by (apply Z.div_str_pos; lia).
  assert (Hle : cfg_memory_size cfg / 2 <= cfg_memory_size cfg)
    by (apply Z.lt_le_incl, Z.div_lt; lia).
  pose proof (constructed_buffer env cfg None HK0) as Hb0.
  rewrite constructed_unbound in Hb0.
  destruct (updates_history calls _ _ _ _ _ _ _ _ None Hb0)
    as (ss & ps & rs & Hb & (L1 & L2 & L3) & Hup & _);
    rewrite ?length_replicate; try lia; try discriminate; try exact Hfit.
  rewrite length_replicate in L1. rewrite length_replicate in L2.
  rewrite length_replicate in L3.
  rewrite Z.add_0_l in Hb.
  exists ss, ps, rs. split; [exact Hb|]. split; [auto|].
  intros j Hj. destruct (Hup j) as (H1 & H2 & H3); [lia|].
  rewrite H1, H2, H3.
  split; [|split]; apply lookup_replicate_2; lia.
Qed.

(** After some calls of [update] on a constructed manager, with both events
    attached, the training loop can run, and the upper half of the arrays
    it reads still holds the constructor's zeros. *)
Lemma ready_to_train_trainer (env : environment) (cfg : config)
    (calls : list (node * Q)) :
  2 <= cfg_memory_size cfg ->
  0 <= cfg_batch_size cfg ->
  calls <> [] ->
  forallb (fun call => fits (state_shape env) (fst call)) calls = true ->
  exists ss ps rs,
    trainer (ready_to_train env cfg calls) (Z.of_nat (length calls))
      (cfg_memory_size cfg) ss ps rs 0 0 1 (cfg_checkpoint cfg)
      (cfg_batch_size cfg)
    /\ forall j : nat,
         (Z.to_nat (cfg_memory_size cfg / 2) <= j < Z.to_nat (cfg_memory_size cfg))%nat ->
         ss !! j = Some (replicate (product (state_shape env)) 0%Q)
         /\ ps !! j = Some (replicate (action_space env) 0%Q)
         /\ rs !! j = Some 0%Q.
Proof.
  intros HK Hbatch Hne Hfit.
  assert (HK0 : 0 <= cfg_memory_size cfg) by lia.
  assert (Hle : cfg_memory_size cfg / 2 <= cfg_memory_size cfg)
    by (apply Z.lt_le_incl, Z.div_lt; lia).
  destruct (updated_table env cfg calls HK Hfit)
    as (ss & ps & rs & Hb & (L1 & L2 & L3) & Hzero).
  destruct (constructed_training_attrs env cfg None HK0)
    as (Hlg & Hmod & Hbs & _ & Hmax & _).
  rewrite constructed_unbound in Hlg, Hmod, Hbs, Hmax.
  destruct (fresh_counters env cfg HK0) as (Hs & Hcp & Hitv).
  destruct (fresh_early env cfg) as (_ & _ & Hn & _).
  assert (Hlen : 0 < Z.of_nat (length calls))
    by (destruct calls; [congruence | cbn [length]; lia]).
  exists ss, ps, rs. split; [|exact Hzero].
  split.
  - kept Hlg.
  - rewrite ready_to_train_lookup by (intro; discriminate).
    exact (buf_cursor _ _ _ _ _ _ _ _ _ Hb).
  - kept Hmax.
  - eexists. rewrite ready_to_train_lookup by (intro; discriminate).
    exact (buf_states _ _ _ _ _ _ _ _ _ Hb).
  - eexists. rewrite ready_to_train_lookup by (intro; discriminate).
    exact (buf_policies _ _ _ _ _ _ _ _ _ Hb).
  - rewrite ready_to_train_lookup by (intro; discriminate).
    exact (buf_rewards _ _ _ _ _ _ _ _ _ Hb).
  - kept Hn.
  - kept Hs.
  - kept Hcp.
  - kept Hitv.
  - kept Hbs.
  - unfold ready_to_train, attach. cbn [attrs].
    rewrite lookup_insert_ne by (intro; discriminate).
    apply lookup_insert_eq.
  - unfold ready_to_train, attach. cbn [attrs]. apply lookup_insert_eq.
  - exists (cfg_memory_size cfg / 2). kept Hmod.
  - lia.
  - exact Hbatch.
  - lia.
  - lia.
  - lia.
Qed.

Lemma rows_at_replicate {A} (a : list A) (i : Z) (x : A) (n : nat) :
  a !! Z.to_nat i = Some x -> rows_at a (replicate n i) = replicate n x.
Proof.
  intros H. induction n as [|n IH]; [reflexivity|].
  cbn [replicate]. rewrite (rows_at_cons a i x _ H), IH. reflexivity.
Qed.

Lemma drawn_constant (high size i : Z) (raw : nat -> Z) :
  0 <= i < high -> (forall k, raw k = i) ->
  drawn high size raw = replicate (Z.to_nat size) i.
Proof.
  intros Hi Hraw. unfold drawn.
  generalize 0%nat. induction (Z.to_nat size) as [|n IH]; intros start;
    [reflexivity|].
  cbn [seq map replicate]. rewrite Hraw, Z.mod_small by lia. f_equal. apply IH.
Qed.

(** The trace of a run of [_train_process] over a single turn in which the
    flag stays set begins with the two records of the start, the request
    to the generator and the [fit] call. *)
Lemma single_turn_trace (t : tick) (w : world) (c K : Z)
    (ss ps : list (list Q)) (rs : list Q) (cand : nat) (s cp itv b : Z) :
  trainer w c K ss ps rs cand s cp itv b ->
  stop_requested t = false ->
  exists tail,
    trace (snd (_train_process [t] w))
    = trace w
      ++ [EvLog "NNPolicyManager|Network" INFO (Text "Starting Training Thread");
          EvLog "NNPolicyManager|Network" INFO (Text "Waiting for more data");
          EvRandint (Z.min c K) b;
          EvFit cand (rows_at ss (drawn (Z.min c K) b (entropy t)))
                     (rows_at ps (drawn (Z.min c K) b (entropy t)))
                     (rows_at rs (drawn (Z.min c K) b (entropy t))) s]
      ++ tail.
Proof.
  intros Hv Hstop.
  destruct (train_process_run [t] w _ _ _ _ _ _ _ _ _ _ Hv) as [Hv0 ->].
  rewrite (train_loop_turn t [] _ _ _ _ _ _ _ _ _ _ _ Hv0), Hstop.
  unfold bind at 1. rewrite (train_step_run t _ _ _ _ _ _ _ _ _ _ _ Hv0). cbv zeta.
  pose proof (tr_logger _ _ _ _ _ _ _ _ _ _ _ Hv) as Hlg.
  cbn [attrs trace next_ref].
  destruct (fit_answer t) as [h|e].
  - destruct (s + 1 =? cp); [destruct (save_answer t) as [[]|e]|].
    + cbn [train_loop]. unfold unfinished. cbn [snd trace].
      eexists. rewrite <- !app_assoc. cbn [app]. reflexivity.
    + destruct (is_Exception e).
      * step. unfold sys_exit, raise. cbn [snd trace].
        eexists. rewrite <- !app_assoc. cbn [app]. reflexivity.
      * cbn [snd trace]. eexists. rewrite <- !app_assoc. cbn [app]. reflexivity.
    + cbn [train_loop]. unfold unfinished. cbn [snd trace].
      eexists. rewrite <- !app_assoc. cbn [app]. reflexivity.
  - destruct (is_Exception e).
    + step. unfold sys_exit, raise. cbn [snd trace].
      eexists. rewrite <- !app_assoc. cbn [app]. reflexivity.
    + cbn [snd trace]. exists []. rewrite <- !app_assoc. cbn [app]. reflexivity.
Qed.

(** The training thread can be fed rows that were never written: once more
    than [memory_size // 2] samples, of nodes whose state has the shape of
    the environment's state, have been stored, the live range of
    [_train_process] reaches into the upper half of the table, which
    [update] never writes, and a draw that lands there submits a batch of
    the constructor's zero rows to [fit]. *)
Theorem training_can_fit_unwritten_rows (env : environment) (cfg : config)
    (calls : list (node * Q)) (t : tick) :
  2 <= cfg_memory_size cfg ->
  0 <= cfg_batch_size cfg ->
  forallb (fun call => fits (state_shape env) (fst call)) calls = true ->
  cfg_memory_size cfg / 2 < Z.of_nat (length calls) ->
  stop_requested t = false ->
  (forall k, entropy t k = cfg_memory_size cfg / 2) ->
  let b := Z.to_nat (cfg_batch_size cfg) in
  EvFit 0 (replicate b (replicate (product (state_shape env)) 0%Q))
          (replicate b (replicate (action_space env) 0%Q))
          (replicate b 0%Q) 0
  ∈ trace (snd (_train_process [t] (ready_to_train env cfg calls))).
Proof.
  intros HK Hbatch Hfit Hlen Hstop Hraw b.
  assert (Hm : 0 < cfg_memory_size cfg / 2) by (apply Z.div_str_pos; lia).
  assert (Hlt : cfg_memory_size cfg / 2 < cfg_memory_size cfg)
    by (apply Z.div_lt; lia).
  destruct (ready_to_train_trainer env cfg calls HK Hbatch)
    as (ss & ps & rs & Hv & Hzero);
    [intros ->; cbn [length] in Hlen; lia | exact Hfit |].
  destruct (Hzero (Z.to_nat (cfg_memory_size cfg / 2))) as (Z1 & Z2 & Z3); [lia|].
  destruct (single_turn_trace t _ _ _ _ _ _ _ _ _ _ _ Hv Hstop) as [tail ->].
  rewrite (drawn_constant _ _ (cfg_memory_size cfg / 2) _) by (try exact Hraw; lia).
  rewrite (rows_at_replicate ss _ _ _ Z1), (rows_at_replicate ps _ _ _ Z2),
    (rows_at_replicate rs _ _ _ Z3).
  fold b. apply elem_of_app. right. apply elem_of_app. left.
  do 3 apply list_elem_of_further. apply list_elem_of_here.
Qed.

Lemma training_can_fit_unwritten_rows_witness :
  EvFit 0 (replicate 4 [0%Q]) (replicate 4 [0%Q; 0%Q]) (replicate 4 0%Q) 0
  ∈ trace (snd (_train_process
                  [Tick false (fun _ => 5) (Answers []) (Answers tt)]
                  (ready_to_train two_actions default_config (samples 6)))).
Proof.
  apply (training_can_fit_unwritten_rows two_actions default_config (samples 6)
           (Tick false (fun _ => 5) (Answers []) (Answers tt))).
  - vm_compute. discriminate.
  - vm_compute. discriminate.
  - reflexivity.
  - vm_compute. reflexivity.
  - reflexivity.
  - intros k. reflexivity.
Defined.

(** ** A failure of the model collaborator *)











(** ** A batch size of 0 *)

Lemma constructed_lookup (env : environment) (cfg : config) (flag : bool)
    (name : string) :
  "replay_ready" <> name ->
  attrs (constructed env cfg (Some flag)) !! name = attrs (fresh env cfg) !! name.
Proof. intros H. unfold constructed, attach. cbn [attrs]. apply lookup_insert_ne. exact H. Qed.

(** With a batch size of 0 the draw is empty and is never refused: even on
    an empty replay table, where any other batch size crashes the thread,
    the first turn of the loop submits an empty batch to [fit]. *)
Theorem zero_batch_fits_nothing (env : environment) (cfg : config) (t : tick) :
  0 <= cfg_memory_size cfg ->
  cfg_batch_size cfg = 0 ->
  stop_requested t = false ->
  let w := attach "_optimize_event" (VEvent true) (constructed env cfg (Some true)) in
  exists tail,
    trace (snd (_train_process [t] w))
    = trace w
      ++ [EvLog "NNPolicyManager|Network" INFO (Text "Starting Training Thread");
          EvLog "NNPolicyManager|Network" INFO (Text "Waiting for more data");
          EvRandint 0 0;
          EvFit 0 [] [] [] 0]
      ++ tail.
Proof.
  intros HK Hbatch Hstop w. unfold w. clear w.
  destruct (constructed_training_attrs env cfg (Some true) HK)
    as (Hlg & Hm & Hb & Hc & Hmax & Hr & _ & _).
  cbn [fmap option_fmap option_map] in Hr. rewrite Hbatch in Hb.
  destruct (constructed_buffer env cfg (Some true) HK) as [_ _ _ _ Hss Hps Hrs _].
  destruct (fresh_counters env cfg HK) as (Hs & Hcp & Hitv).
  destruct (fresh_early env cfg) as (_ & _ & Hn & _).
  rewrite <- (constructed_lookup env cfg true) in Hs, Hcp, Hitv, Hn
    by (intro; discriminate).
  destruct (constructed env cfg (Some true)) as [a tr nr];
    unfold attach; cbn [attrs trace next_ref] in *.
  unfold _train_process. step.
  erewrite run_getattr_number by solve_lookup. reduce.
  step. unfold try_except, event_wait. do 2 step.
  cbn [train_loop]. unfold cleared_elsewhere. rewrite Hstop.
  unfold bind at 1. cbv beta iota. do 1 step.
  unfold train_step. do 2 step. unfold randint. step.
  change (0 =? 0) with true. reduce. rewrite Z.min_l by lia.
  step. cbn [np_take]. reduce.
  step. cbn [np_take]. reduce.
  step. cbn [np_take]. reduce.
  do 2 step. unfold fit. step.
  destruct (fit_answer t) as [h|e]; reduce.
  - do 5 step. change (0 + 1 =? 1) with true. cbv beta iota.
    do 5 step. unfold save. step.
    destruct (save_answer t) as [[]|e]; reduce.
    + unfold unfinished. cbn [snd trace].
      eexists. rewrite <- !app_assoc. cbn [app]. reflexivity.
    + destruct (is_Exception e).
      * step. unfold sys_exit, raise. cbn [snd trace].
        eexists. rewrite <- !app_assoc. cbn [app]. reflexivity.
      * cbn [snd trace]. eexists. rewrite <- !app_assoc. cbn [app]. reflexivity.
  - destruct (is_Exception e).
    + step. unfold sys_exit, raise. cbn [snd trace].
      eexists. rewrite <- !app_assoc. cbn [app]. reflexivity.
    + cbn [snd trace]. exists []. rewrite <- !app_assoc. cbn [app]. reflexivity.
Qed.

Lemma zero_batch_fits_nothing_witness :
  exists tail,
    trace (snd (_train_process [quiet_tick]
                  (attach "_optimize_event" (VEvent true)
                     (constructed two_actions
                        (Config 1000 400 (55 # 100) 10 (3 # 100) (25 # 100)
                           (141 # 100) [(0, 1 # 100)] 0 false)
                        (Some true)))))
    = trace (attach "_optimize_event" (VEvent true)
               (constructed two_actions
                  (Config 1000 400 (55 # 100) 10 (3 # 100) (25 # 100)
                     (141 # 100) [(0, 1 # 100)] 0 false)
                  (Some true)))
      ++ [EvLog "NNPolicyManager|Network" INFO (Text "Starting Training Thread");
          EvLog "NNPolicyManager|Network" INFO (Text "Waiting for more data");
          EvRandint 0 0;
          EvFit 0 [] [] [] 0]
      ++ tail.
Proof.
  apply (zero_batch_fits_nothing two_actions
           (Config 1000 400 (55 # 100) 10 (3 # 100) (25 # 100)
              (141 # 100) [(0, 1 # 100)] 0 false) quiet_tick).
  - cbn. lia.
  - reflexivity.
  - reflexivity.
Defined.
